(** * Hackson backend: the authenticated graph-access layer

    A shallow embedding of the FastAPI handlers of [backend/app/api] and of
    the services they call, over an explicit model of the two stores: the
    Neo4j graph (Person nodes with a property map, typed relationships) and
    the relational user table.  Each Cypher text of the source is embedded
    as one function over the graph, with Cypher's three-valued logic and its
    operator precedence written out. *)

From Stdlib Require Import ZArith String Ascii List Lia.
From stdpp Require Import base option list strings gmap pretty.

Open Scope string_scope.

(** ** Python values and exceptions *)

(** A property value as the Neo4j driver hands it to Python. A property
    that is not set is absent from the map ([None] in Python, [null] in
    Cypher). *)
Inductive Value :=
  | VStr (s : string)
  | VInt (z : Z)
  | VBool (b : bool)
  | VList (l : list string).

#[global] Instance Value_eq_dec : EqDecision Value.
Proof. solve_decision. Defined.

(** Python truthiness of an optional value ([if name:]). *)
Definition truthy (v : option Value) : bool :=
  match v with
  | None => false
  | Some (VStr s) => negb (String.eqb s "")
  | Some (VInt z) => negb (Z.eqb z 0%Z)
  | Some (VBool b) => b
  | Some (VList l) => match l with [] => false | _ => true end
  end.

Inductive PyExc :=
  | HTTPException (status_code : Z) (detail : string)
  | ValueError (msg : string)
  | Exception (msg : string).

Inductive Res (A : Type) :=
  | Ok (a : A)
  | Raise (e : PyExc).
Arguments Ok {A} a.
Arguments Raise {A} e.

#[global] Instance Res_ret : MRet Res := fun A a => Ok a.

#[global] Instance Res_bind : MBind Res := fun A B k m =>
  match m with
  | Ok a => k a
  | Raise e => Raise e
  end.

Definition str_exc (e : PyExc) : string :=
  match e with
  | HTTPException c d => d
  | ValueError m => m
  | Exception m => m
  end.

(** [try: body except Exception as e: raise HTTPException(500, prefix + str(e))]:
    the wrapper of every graph handler. [HTTPException] is an [Exception]
    too, so it is wrapped as well. *)
Definition except_500 {A} (prefix : string) (m : Res A) : Res A :=
  match m with
  | Ok a => Ok a
  | Raise e => Raise (HTTPException 500 (prefix ++ str_exc e))
  end.

(** [except HTTPException: raise] before [except Exception]: the wrapper of
    the person handlers that raise 404 and 400 themselves. *)
Definition except_500_keep_http {A} (prefix : string) (m : Res A) : Res A :=
  match m with
  | Ok a => Ok a
  | Raise (HTTPException c d) => Raise (HTTPException c d)
  | Raise e => Raise (HTTPException 500 (prefix ++ str_exc e))
  end.

(** ** Strings *)

Definition lower_ascii (c : ascii) : ascii :=
  let n := nat_of_ascii c in
  if (Nat.leb 65 n && Nat.leb n 90)%bool then ascii_of_nat (n + 32) else c.

(** Case folding of the ASCII letters. A text without other cased
    characters, as those of the example stores, is folded in this way by
    [str.lower()] and by Cypher's [toLower] alike. *)
Fixpoint ascii_lower (s : string) : string :=
  match s with
  | EmptyString => EmptyString
  | String c r => String (lower_ascii c) (ascii_lower r)
  end.

(** [s.replace(' ', '-')]. *)
Fixpoint replace_space (s : string) : string :=
  match s with
  | EmptyString => EmptyString
  | String c r =>
      String (if Ascii.eqb c " "%char then "-"%char else c) (replace_space r)
  end.

Fixpoint prefixb (p s : string) : bool :=
  match p, s with
  | EmptyString, _ => true
  | String a p', String b s' => (Ascii.eqb a b && prefixb p' s')%bool
  | String _ _, EmptyString => false
  end.

(** Cypher's [s CONTAINS q] on two strings. *)
Fixpoint contains (s q : string) : bool :=
  (prefixb q s ||
   match s with
   | EmptyString => false
   | String _ s' => contains s' q
   end)%bool.

(** ** The graph store *)

(** A node labelled [Person]: its property map. *)
Record Node := {
  props : gmap string Value
}.

(** A directed relationship between two nodes of the store, given by their
    positions in [persons]. [rel_type] is the relationship label of Cypher
    ([-[r:RELATED_TO]-]); [rel_props] are its properties. *)
Record Rel := {
  rel_start : nat;
  rel_end : nat;
  rel_type : string;
  rel_props : gmap string Value
}.

Record Neo4j := {
  up : bool;
  persons : list Node;
  rels : list Rel
}.

(** [Neo4jDatabase.execute_query]: the driver raises when the store cannot
    be reached, otherwise the query runs. *)
Definition execute_query {A} (db : Neo4j) (q : Neo4j → Res A) : Res A :=
  if up db then q db else Raise (Exception "ServiceUnavailable").

(** ** Cypher expressions *)

(** Cypher's ternary logic: [None] is [null]. *)
Definition tri := option bool.

Definition cy_or (a b : tri) : tri :=
  match a, b with
  | Some true, _ | _, Some true => Some true
  | Some false, Some false => Some false
  | _, _ => None
  end.

Definition cy_and (a b : tri) : tri :=
  match a, b with
  | Some false, _ | _, Some false => Some false
  | Some true, Some true => Some true
  | _, _ => None
  end.

(** A [WHERE] clause keeps a row only when it evaluates to [true]. *)
Definition cy_holds (t : tri) : bool :=
  match t with Some true => true | _ => false end.

(** [x IN ['system', 'public']]: [null] for a missing property. *)
Definition cy_in (x : option Value) (l : list string) : tri :=
  match x with
  | None => None
  | Some (VStr s) => Some (bool_decide (s ∈ l))
  | Some _ => Some false
  end.

Definition cy_is_null (x : option Value) : tri :=
  match x with None => Some true | Some _ => Some false end.

(** [SKIP $skip LIMIT $limit]: a negative parameter is a query error. *)
Definition skip_limit {A} (skip limit : Z) (rows : list A) : Res (list A) :=
  if ((skip <? 0) || (limit <? 0))%Z
  then Raise (Exception "Neo4jError: invalid SKIP or LIMIT")
  else Ok (take (Z.to_nat limit) (drop (Z.to_nat skip) rows)).

(** ** The relational user table *)

(** The ORM class [app.models.user.User]: its columns as [UserInDB] of
    [schemas/user.py] lists them and as the services read and write them. *)
Record User := {
  user_id : Z;
  email : string;
  hashed_password : string;
  full_name : option string;
  is_active : bool;
  neo4j_person_id : option string;
  is_in_graph : bool
}.

#[global] Instance User_eq_dec : EqDecision User.
Proof. solve_decision. Defined.

(** ** The Cypher texts of the network endpoints *)

Definition source_type_of (m : gmap string Value) : option Value :=
  m !! "source_type".

(** [x.source_type IN ['system', 'public']]. *)
Definition st_in (m : gmap string Value) : tri :=
  cy_in (source_type_of m) ["system"; "public"].

(** [x.source_type IS NULL]. *)
Definition st_null (m : gmap string Value) : tri :=
  cy_is_null (source_type_of m).

(** [WHERE p.source_type IN ['system', 'public'] OR p.source_type IS NULL]. *)
Definition anon_node_where (p : Node) : tri :=
  cy_or (st_in (props p)) (st_null (props p)).

(** The [WHERE] clause of the anonymous edge query of [get_graph_network]
    (lines 213-221; [get_optimized_graph_network] has the same text at lines
    467-475), parsed as Cypher parses it: [AND] binds tighter than [OR], and
    only the last disjunction is parenthesised in the text:
<<
    a.source_type IN [..] OR a.source_type IS NULL
      AND b.source_type IN [..] OR b.source_type IS NULL
      AND (r.source_type IN [..] OR r.source_type IS NULL)
>> *)
Definition anon_edge_where (a : Node) (r : Rel) (b : Node) : tri :=
  cy_or
    (cy_or (st_in (props a))
           (cy_and (st_null (props a)) (st_in (props b))))
    (cy_and (st_null (props b))
            (cy_or (st_in (rel_props r)) (st_null (rel_props r)))).

(** [MATCH (a:Person)-[r]->(b:Person)]: every relationship with its two
    end nodes, in store order. *)
Definition match_edges (db : Neo4j) : list (Node * Rel * Node) :=
  omap (λ r, a ← persons db !! rel_start r;
             b ← persons db !! rel_end r;
             Some (a, r, b)) (rels db).

(** A row of [RETURN a.id as source_id, b.id as target_id, r]. *)
Record EdgeRow := {
  source_id : option Value;
  target_id : option Value;
  r : Rel
}.

Definition edge_row (t : Node * Rel * Node) : EdgeRow :=
  let '(a, r, b) := t in
  {| source_id := props a !! "id"; target_id := props b !! "id"; r := r |}.

Definition nodes_query_anon (skip limit : Z) (db : Neo4j) : Res (list Node) :=
  skip_limit skip limit
    (List.filter (λ p, cy_holds (anon_node_where p)) (persons db)).

Definition nodes_query_all (skip limit : Z) (db : Neo4j) : Res (list Node) :=
  skip_limit skip limit (persons db).

Definition edges_query_anon (skip limit : Z) (db : Neo4j) : Res (list EdgeRow) :=
  skip_limit skip limit
    (edge_row <$>
       List.filter (λ t, let '(a, r, b) := t in cy_holds (anon_edge_where a r b))
                   (match_edges db)).

Definition edges_query_all (skip limit : Z) (db : Neo4j) : Res (list EdgeRow) :=
  skip_limit skip limit (edge_row <$> match_edges db).

(** ** Response models of [models/entity.py] *)

Record GraphNode := {
  n_id : string;
  n_label : string;
  n_type : string;
  n_properties : list (string * option Value)
}.

Record GraphEdge := {
  e_id : string;
  e_source : string;
  e_target : string;
  e_label : string;
  e_type : string;
  e_properties : list (string * option Value)
}.

Record GraphData := {
  nodes : list GraphNode;
  edges : list GraphEdge
}.

(** A field annotated [str]: pydantic rejects [None] and every value that
    is not a string. *)
Definition as_str (v : option Value) : Res string :=
  match v with
  | Some (VStr s) => Ok s
  | _ => Raise (Exception "ValidationError")
  end.

Definition GraphNode_new (id label : option Value) (type : string)
    (properties : list (string * option Value)) : Res GraphNode :=
  i ← as_str id;
  l ← as_str label;
  Ok {| n_id := i; n_label := l; n_type := type; n_properties := properties |}.

Definition GraphEdge_new (id source target label : option Value) (type : string)
    (properties : list (string * option Value)) : Res GraphEdge :=
  i ← as_str id;
  s ← as_str source;
  t ← as_str target;
  l ← as_str label;
  Ok {| e_id := i; e_source := s; e_target := t; e_label := l;
        e_type := type; e_properties := properties |}.

(** Lookup in a response dictionary: [None] when the key is missing,
    [Some None] when it is present with value [None]. *)
Fixpoint dict_get (d : list (string * option Value)) (k : string)
    : option (option Value) :=
  match d with
  | [] => None
  | (k', v) :: rest => if String.eqb k' k then Some v else dict_get rest k
  end.

(** [d.get(k, dflt)] on a store object. *)
Definition get_default (m : gmap string Value) (k : string) (dflt : Value) : Value :=
  default dflt (m !! k).

(** The [properties={...}] literal shared by the node handlers. *)
Definition person_properties (person_data : gmap string Value)
    : list (string * option Value) :=
  [ ("name", person_data !! "name");
    ("birth_year", person_data !! "birth_year");
    ("death_year", person_data !! "death_year");
    ("occupation", person_data !! "occupation");
    ("specialty", person_data !! "specialty");
    ("hobby", person_data !! "hobby");
    ("achievement", person_data !! "achievement");
    ("female_experience", person_data !! "female_experience");
    ("type", person_data !! "type");
    ("frequency", person_data !! "frequency");
    ("degree", person_data !! "degree");
    ("description", person_data !! "description");
    ("human_readable_id", person_data !! "human_readable_id");
    ("knowledge_source", person_data !! "knowledge_source");
    ("source_type", person_data !! "source_type");
    ("created_by", person_data !! "created_by");
    ("is_verified", Some (get_default person_data "is_verified" (VBool false)));
    ("created_at", person_data !! "created_at") ].

(** The [properties={...}] literal of the edge handlers. *)
Definition edge_properties (rel_data : gmap string Value)
    : list (string * option Value) :=
  [ ("type", Some (get_default rel_data "type" (VStr "RELATED_TO")));
    ("description", rel_data !! "description");
    ("strength", Some (get_default rel_data "strength" (VInt 1)));
    ("source_type", Some (get_default rel_data "source_type" (VStr "user_created")));
    ("created_by", rel_data !! "created_by");
    ("created_at", rel_data !! "created_at") ].

(** ** Handlers of [api/graph.py] *)

Section Handlers.

(** The entropy of one request: [uuid4_hex n] is the [hex] of the [n]-th
    value that [uuid.uuid4()] returns while the request is served. *)
Variable uuid4_hex : nat → string.

(** [str.lower()] of Python and [toLower] of Cypher. Each folds the cased
    characters of all of Unicode by tables of its own; the handlers are
    modelled for whatever the two functions are. *)
Variable lower : string → string.
Variable toLower : string → string.

(** [uuid.uuid4().hex[:8]]. *)
Definition hex8 (c : nat) : string := substring 0 8 (uuid4_hex c).

(** [str(uuid.uuid4())]: the hex digits in groups of 8-4-4-4-12. *)
Definition str_uuid (c : nat) : string :=
  let h := uuid4_hex c in
  substring 0 8 h ++ "-" ++ substring 8 4 h ++ "-" ++ substring 12 4 h
    ++ "-" ++ substring 16 4 h ++ "-" ++ substring 20 12 h.

(** The node identifier of [get_graph_network] (lines 248-254), with the
    number of uuids drawn so far threaded through. [name.lower()] exists on
    strings only. *)
Definition network_node_id (i c : nat) (person_data : gmap string Value)
    : Res (Value * nat) :=
  let name := person_data !! "name" in
  match person_data !! "id" with
  | Some node_id => Ok (node_id, c)
  | None =>
      let node_id := VStr ("node-" ++ pretty i ++ "-" ++ hex8 c) in
      let c := S c in
      if truthy name then
        match name with
        | Some (VStr s) =>
            Ok (VStr (replace_space (lower s) ++ "-" ++ hex8 c), S c)
        | _ => Raise (Exception "AttributeError")
        end
      else Ok (node_id, c)
  end.

Definition network_node (i c : nat) (record : Node) : Res (GraphNode * nat) :=
  let person_data := props record in
  let name := person_data !! "name" in
  let label := match name with Some v => v | None => VStr "未知" end in
  '(node_id, c) ← network_node_id i c person_data;
  node ← GraphNode_new (Some node_id) (Some label) "person"
            (person_properties person_data);
  Ok (node, c).

(** [for i, record in enumerate(nodes_result): ... nodes.append(node)]. *)
Fixpoint network_nodes (i c : nat) (rows : list Node)
    : Res (list GraphNode * nat) :=
  match rows with
  | [] => Ok ([], c)
  | record :: rest =>
      '(node, c) ← network_node i c record;
      '(nodes, c) ← network_nodes (S i) c rest;
      Ok (node :: nodes, c)
  end.

(** One edge of the generic shape (lines 288-314 and 153-179). The default
    of [rel_data.get("id", str(uuid.uuid4()))] is evaluated, and so a uuid
    drawn, whether the property is there or not. *)
Definition network_edge (i c : nat) (record : EdgeRow) : Res (GraphEdge * nat) :=
  let rel_data := rel_props (r record) in
  let '(source_id, c) :=
    match source_id record with
    | Some v => (v, c)
    | None => (VStr ("source-" ++ pretty i ++ "-" ++ hex8 c), S c)
    end in
  let '(target_id, c) :=
    match target_id record with
    | Some v => (v, c)
    | None => (VStr ("target-" ++ pretty i ++ "-" ++ hex8 c), S c)
    end in
  let id := get_default rel_data "id" (VStr (str_uuid c)) in
  let c := S c in
  edge ← GraphEdge_new (Some id) (Some source_id) (Some target_id)
            (Some (get_default rel_data "type" (VStr "RELATED_TO")))
            "relates_to" (edge_properties rel_data);
  Ok (edge, c).

Fixpoint network_edges (i c : nat) (rows : list EdgeRow)
    : Res (list GraphEdge * nat) :=
  match rows with
  | [] => Ok ([], c)
  | record :: rest =>
      '(edge, c) ← network_edge i c record;
      '(edges, c) ← network_edges (S i) c rest;
      Ok (edge :: edges, c)
  end.

(** [GET /graph/network]. [current_user] is what [get_current_user_or_none]
    returned: [None] for an anonymous caller. *)
Definition get_graph_network (db : Neo4j)
    (skip_nodes limit_nodes skip_edges limit_edges : Z)
    (current_user : option User) : Res GraphData :=
  except_500 "Failed to retrieve graph network: "
    (let '(nodes_query, edges_query) :=
       match current_user with
       | None => (nodes_query_anon, edges_query_anon)
       | Some _ => (nodes_query_all, edges_query_all)
       end in
     nodes_result ← execute_query db (nodes_query skip_nodes limit_nodes);
     '(nodes, c) ← network_nodes 0 0 nodes_result;
     edges_result ← execute_query db (edges_query skip_edges limit_edges);
     '(edges, _) ← network_edges 0 c edges_result;
     Ok {| nodes := nodes; edges := edges |}).

(** One node of [get_graph_nodes] and [search_graph_nodes]: [id] and
    [label] are what the store holds, with no fallback. *)
Definition plain_node (record : Node) : Res GraphNode :=
  let person_data := props record in
  GraphNode_new (person_data !! "id") (person_data !! "name") "person"
    (person_properties person_data).

(** [GET /graph/nodes]. *)
Definition get_graph_nodes (db : Neo4j) (skip limit : Z) (current_user : User)
    : Res (list GraphNode) :=
  except_500 "Failed to retrieve graph nodes: "
    (result ← execute_query db (nodes_query_all skip limit);
     mapM plain_node result).

(** [GET /graph/edges]. *)
Definition get_graph_edges (db : Neo4j) (skip limit : Z) (current_user : User)
    : Res (list GraphEdge) :=
  except_500 "Failed to retrieve graph edges: "
    (result ← execute_query db (edges_query_all skip limit);
     '(edges, _) ← network_edges 0 0 result;
     Ok edges).

(** *** Search *)

(** [toLower(x)]: [null] for [null], a run-time type error for a value that
    is not a string. *)
Definition cy_toLower (x : option Value) : Res (option string) :=
  match x with
  | None => Ok None
  | Some (VStr s) => Ok (Some (toLower s))
  | Some _ => Raise (Exception "Neo4jError: toLower expects a string")
  end.

(** [x[0]]: [null] for [null] and for an empty list, a run-time type error
    for a value that is not a list. *)
Definition cy_first (x : option Value) : Res (option Value) :=
  match x with
  | None => Ok None
  | Some (VList l) => Ok (VStr <$> head l)
  | Some _ => Raise (Exception "Neo4jError: element access on a non-list")
  end.

(** [a CONTAINS b]: [null] when an operand is [null]. *)
Definition cy_contains (a b : option string) : tri :=
  match a, b with
  | Some a, Some b => Some (contains a b)
  | _, _ => None
  end.

(** [toLower(x) CONTAINS toLower($query)]. *)
Definition search_term (x : option Value) (q : string) : Res tri :=
  s ← cy_toLower x;
  Ok (cy_contains s (Some (toLower q))).

(** The [WHERE] clause of the two search queries. Every operand is
    evaluated: a type error in one of them fails the query. *)
Definition search_where (q : string) (p : Node) : Res tri :=
  let m := props p in
  t_name ← search_term (m !! "name") q;
  occupation0 ← cy_first (m !! "occupation");
  t_occupation ← search_term occupation0 q;
  specialty0 ← cy_first (m !! "specialty");
  t_specialty ← search_term specialty0 q;
  hobby0 ← cy_first (m !! "hobby");
  t_hobby ← search_term hobby0 q;
  t_achievement ← search_term (m !! "achievement") q;
  t_description ← search_term (m !! "description") q;
  t_type ← search_term (m !! "type") q;
  Ok (cy_or (cy_or (cy_or (cy_or (cy_or (cy_or
        t_name t_occupation) t_specialty) t_hobby) t_achievement)
        t_description) t_type).

(** [MATCH (p:Person) WHERE ... RETURN p]: the rows that pass, in store
    order. *)
Fixpoint search_rows (q : string) (l : list Node) : Res (list Node) :=
  match l with
  | [] => Ok []
  | p :: rest =>
      t ← search_where q p;
      rows ← search_rows q rest;
      Ok (if cy_holds t then p :: rows else rows)
  end.

(** The search query, with its [LIMIT 50]. *)
Definition search_query (q : string) (db : Neo4j) : Res (list Node) :=
  rows ← search_rows q (persons db);
  Ok (take 50 rows).

(** [GET /graph/nodes/search]. *)
Definition search_graph_nodes (db : Neo4j) (q : string) (current_user : User)
    : Res (list GraphNode) :=
  except_500 "Failed to search graph nodes: "
    (result ← execute_query db (search_query q);
     mapM plain_node result).

(** *** Neighbor lookup *)

(** What a handler hands back to FastAPI: a JSON-like Python value. *)
#[warnings="-register-all"] Inductive PyVal :=
  | PyNone
  | PyV (v : Value)
  | PyList (l : list PyVal)
  | PyDict (d : list (string * PyVal)).

Definition py (v : option Value) : PyVal :=
  match v with Some v => PyV v | None => PyNone end.

(** [MATCH (p:Person {id: $node_id})-[r:RELATED_TO]-(other:Person)]: for
    every person whose [id] is [$node_id], the relationships labelled
    [RELATED_TO] that start or end at it, with the node at the other end. *)
Definition related_of (db : Neo4j) (i : nat) (p : Node) : list (Node * Rel * Node) :=
  omap (λ r,
      if negb (String.eqb (rel_type r) "RELATED_TO") then None
      else if Nat.eqb (rel_start r) i then
        other ← persons db !! rel_end r; Some (p, r, other)
      else if Nat.eqb (rel_end r) i then
        other ← persons db !! rel_start r; Some (p, r, other)
      else None)
    (rels db).

Definition has_id (node_id : string) (p : Node) : bool :=
  bool_decide (props p !! "id" = Some (VStr node_id)).

Definition match_related (db : Neo4j) (node_id : string) : list (Node * Rel * Node) :=
  mjoin (imap (λ i p, if has_id node_id p then related_of db i p else [])
              (persons db)).

(** The anonymous [WHERE] of the neighbor lookup, as Cypher parses it:
<<
    p.source_type IN [..] OR p.source_type IS NULL
      AND other.source_type IN [..] OR other.source_type IS NULL
>> *)
Definition anon_connection_where (p other : Node) : tri :=
  cy_or
    (cy_or (st_in (props p))
           (cy_and (st_null (props p)) (st_in (props other))))
    (st_null (props other)).

(** A row of [RETURN other.id as target_id, r.strength as strength,
    r.description as description]. *)
Record ConnRow := {
  c_target_id : option Value;
  c_strength : option Value;
  c_description : option Value
}.

Definition conn_row (t : Node * Rel * Node) : ConnRow :=
  let '(p, r, other) := t in
  {| c_target_id := props other !! "id";
     c_strength := rel_props r !! "strength";
     c_description := rel_props r !! "description" |}.

Definition connections_query_anon (node_id : string) (db : Neo4j) : Res (list ConnRow) :=
  Ok (take 10 (conn_row <$>
        List.filter (λ t, let '(p, r, other) := t in
                          cy_holds (anon_connection_where p other))
                    (match_related db node_id))).

Definition connections_query_all (node_id : string) (db : Neo4j) : Res (list ConnRow) :=
  Ok (take 10 (conn_row <$> match_related db node_id)).

Definition connection_dict (record : ConnRow) : PyVal :=
  PyDict [ ("target_id", py (c_target_id record));
           ("strength", py (c_strength record));
           ("description", py (c_description record)) ].

(** [GET /graph/nodes/{node_id}/connections]: the value the handler
    returns, [{"connections": connections}]. *)
Definition get_node_connections (db : Neo4j) (node_id : string)
    (current_user : option User) : Res PyVal :=
  except_500 "Failed to retrieve node connections: "
    (let query :=
       match current_user with
       | None => connections_query_anon
       | Some _ => connections_query_all
       end in
     result ← execute_query db (query node_id);
     Ok (PyDict [("connections", PyList (connection_dict <$> result))])).

(** [response_model=List[dict]] of the route decorator: FastAPI validates
    the returned value against it, outside the handler's [try], and answers
    with an internal error when it does not fit. *)
Definition is_List_dict (v : PyVal) : bool :=
  match v with
  | PyList l => forallb (λ x, match x with PyDict _ => true | _ => false end) l
  | _ => false
  end.

Definition route_get_node_connections (db : Neo4j) (node_id : string)
    (current_user : option User) : Res PyVal :=
  v ← get_node_connections db node_id current_user;
  if is_List_dict v then Ok v
  else Raise (HTTPException 500 "Internal Server Error").

End Handlers.

(** ** Request models of [models/entity.py] and [schemas/user.py] *)

Module PersonCreate.
Record t := {
    name : string;
    birth_year : option Z;
    death_year : option Z;
    occupation : option (list string);
    specialty : option (list string);
    hobby : option (list string);
    achievement : option string;
    female_experience : option (list string);
    type : option string;
    frequency : option Z;
    degree : option Z;
    description : option string;
    human_readable_id : option string;
    knowledge_source : option string;
    source_type : string;
    created_by : option string;
    is_verified : bool
  }.
End PersonCreate.

Module PersonUpdate.
Record t := {
    name : option string;
    birth_year : option Z;
    death_year : option Z;
    occupation : option (list string);
    specialty : option (list string);
    hobby : option (list string);
    achievement : option string;
    female_experience : option (list string);
    type : option string;
    frequency : option Z;
    degree : option Z;
    description : option string;
    human_readable_id : option string;
    knowledge_source : option string;
    is_verified : option bool
  }.

  (** The body [{}]: every field keeps its default [None]. *)
Definition empty : t :=
    {| name := None; birth_year := None; death_year := None;
       occupation := None; specialty := None; hobby := None;
       achievement := None; female_experience := None; type := None;
       frequency := None; degree := None; description := None;
       human_readable_id := None; knowledge_source := None;
       is_verified := None |}.
End PersonUpdate.

Module PersonResponse.
Record t := {
    id : string;
    name : string;
    birth_year : option Z;
    death_year : option Z;
    occupation : option (list string);
    specialty : option (list string);
    hobby : option (list string);
    achievement : option string;
    female_experience : option (list string);
    type : option string;
    frequency : option Z;
    degree : option Z;
    description : option string;
    human_readable_id : option string;
    knowledge_source : option string;
    source_type : string;
    created_by : option string;
    is_verified : bool;
    created_at : string;
    updated_at : option string
  }.
End PersonResponse.

Module UserCreate.
Record t := {
    email : string;
    full_name : option string;
    password : string
  }.
End UserCreate.

(** Fields annotated [Optional[int]], [Optional[str]], [Optional[List[str]]]
    and [bool]: [None] passes where the annotation allows it, a value of
    another type is a validation error. *)
Definition as_opt_int (v : option Value) : Res (option Z) :=
  match v with
  | None => Ok None
  | Some (VInt z) => Ok (Some z)
  | Some _ => Raise (Exception "ValidationError")
  end.

Definition as_opt_str (v : option Value) : Res (option string) :=
  match v with
  | None => Ok None
  | Some (VStr s) => Ok (Some s)
  | Some _ => Raise (Exception "ValidationError")
  end.

Definition as_opt_list (v : option Value) : Res (option (list string)) :=
  match v with
  | None => Ok None
  | Some (VList l) => Ok (Some l)
  | Some _ => Raise (Exception "ValidationError")
  end.

Definition as_bool (v : option Value) : Res bool :=
  match v with
  | Some (VBool b) => Ok b
  | _ => Raise (Exception "ValidationError")
  end.

(** ** Authentication *)

(** The part of a request the handlers depend on: its [Authorization]
    header. *)
Record Request := {
  authorization : option string
}.

(** [str.partition(" ")]: the text before the first space and the text
    after it. *)
Fixpoint partition_space (s : string) : string * string :=
  match s with
  | EmptyString => ("", "")
  | String c rest =>
      if Ascii.eqb c " "%char then ("", rest)
      else let '(a, b) := partition_space rest in (String c a, b)
  end.

(** [fastapi.security.utils.get_authorization_scheme_param]. *)
Definition get_authorization_scheme_param (authorization : option string)
    : string * string :=
  match authorization with
  | None => ("", "")
  | Some h => if String.eqb h "" then ("", "") else partition_space h
  end.

(** [oauth2_scheme = OAuth2PasswordBearer(tokenUrl="/api/auth/login")] of
    [api/auth.py]: the call FastAPI makes to resolve [Depends(oauth2_scheme)].
    The instance is built without [auto_error], which therefore keeps its
    default [True]: a request without a bearer credential is rejected here,
    before the function that depends on the token is entered. The test is
    [scheme.lower() != "bearer"]; no character outside ASCII folds to a
    letter of [bearer], so folding the ASCII letters decides it. *)
Definition oauth2_scheme (request : Request) : Res string :=
  let '(scheme, param) := get_authorization_scheme_param (authorization request) in
  let missing :=
    match authorization request with
    | None => true
    | Some h => String.eqb h ""
    end in
  if (missing || negb (String.eqb (ascii_lower scheme) "bearer"))%bool
  then Raise (HTTPException 401 "Not authenticated")
  else Ok param.

Definition SqlDb := list User.

(** [get_user_by_email]: [scalar_one_or_none()] raises when more than one
    row matches. *)
Definition get_user_by_email (db : SqlDb) (email_ : string) : Res (option User) :=
  match List.filter (λ u, String.eqb (email u) email_) db with
  | [] => Ok None
  | [u] => Ok (Some u)
  | _ => Raise (Exception "MultipleResultsFound")
  end.

Section Auth.

(** [jwt.decode(token, SECRET_KEY, algorithms=[ALGORITHM])] followed by
    [payload.get("sub")]: [None] when the library raises [JWTError] (bad
    signature, malformed or expired token), otherwise the subject claim of
    the payload, if it has one. *)
Variable jwt_decode : string → option (option string).

(** [verify_token] of [services/auth_service.py]; the [TokenData] it
    returns carries the e-mail only. *)
Definition verify_token (token : string) : option string :=
  match jwt_decode token with
  | None => None
  | Some None => None
  | Some (Some email) => Some email
  end.

(** [get_current_user], the same function in [api/graph.py],
    [api/persons.py] and [api/users.py]. *)
Definition get_current_user (token : string) (db : SqlDb) : Res User :=
  match verify_token token with
  | None => Raise (HTTPException 401 "Could not validate credentials")
  | Some token_email =>
      user ← get_user_by_email db token_email;
      match user with
      | None => Raise (HTTPException 404 "User not found")
      | Some user =>
          if negb (is_active user)
          then Raise (HTTPException 400 "Inactive user")
          else Ok user
      end
  end.

(** [get_current_user_or_none] of [api/graph.py]: its body is one [try]
    whose [except Exception] returns [None]. *)
Definition get_current_user_or_none (token : string) (db : SqlDb) : option User :=
  let body : Res (option User) :=
    match verify_token token with
    | None => Ok None
    | Some token_email =>
        user ← get_user_by_email db token_email;
        match user with
        | None => Ok None
        | Some user => if negb (is_active user) then Ok None else Ok (Some user)
        end
    end in
  match body with
  | Ok r => r
  | Raise _ => None
  end.

(** [Depends(get_current_user)]: FastAPI resolves the sub-dependency
    [Depends(oauth2_scheme)] first and calls the function with its result. *)
Definition depends_get_current_user (request : Request) (db : SqlDb) : Res User :=
  token ← oauth2_scheme request;
  get_current_user token db.

(** [Depends(get_current_user_or_none)], resolved the same way. *)
Definition depends_get_current_user_or_none (request : Request) (db : SqlDb)
    : Res (option User) :=
  token ← oauth2_scheme request;
  Ok (get_current_user_or_none token db).

End Auth.

(** ** Writes: [api/persons.py] and [services/user_service.py] *)

(** A query that writes: it runs on a reachable store only and leaves the
    store it produced behind. *)
Definition execute_write {A} (db : Neo4j) (q : Neo4j → Res A * Neo4j)
    : Res A * Neo4j :=
  if up db then q db else (Raise (Exception "ServiceUnavailable"), db).

(** The parameters that are not [None]. *)
Definition non_null (l : list (string * option Value)) : list (string * Value) :=
  omap (λ kv, (λ v, (kv.1, v)) <$> kv.2) l.

(** [CREATE (p:Person {k: $k, ...}) RETURN p]: a property whose parameter is
    [null] is not stored. *)
Definition create_query (params : list (string * option Value)) (db : Neo4j)
    : Res (list Node) * Neo4j :=
  let p := {| props := list_to_map (non_null params) |} in
  (Ok [p], {| up := up db; persons := persons db ++ [p]; rels := rels db |}).

(** [SET p.k1 = $k1, p.k2 = $k2, ...] on one property map. *)
Definition set_props (fields : list (string * Value)) (m : gmap string Value)
    : gmap string Value :=
  foldl (λ m kv, <[kv.1 := kv.2]> m) m fields.

(** [MATCH (p:Person {id: $id}) RETURN p]. *)
Definition check_query (id : string) (db : Neo4j) : Res (list Node) :=
  Ok (List.filter (has_id id) (persons db)).

(** [MATCH (p:Person {id: $id}) SET ... RETURN p]: every person with that
    id is updated and returned. *)
Definition update_query (id : string) (fields : list (string * Value)) (db : Neo4j)
    : Res (list Node) * Neo4j :=
  let set p := {| props := set_props fields (props p) |} in
  (Ok (set <$> List.filter (has_id id) (persons db)),
   {| up := up db;
      persons := (λ p, if has_id id p then set p else p) <$> persons db;
      rels := rels db |}).

(** The fifteen tests of [update_person] (lines 293-337), in order: the
    property each one sets and the value it takes from the request. *)
Definition update_table (person_data : PersonUpdate.t)
    : list (string * option Value) :=
  [ ("name", VStr <$> PersonUpdate.name person_data);
    ("birth_year", VInt <$> PersonUpdate.birth_year person_data);
    ("death_year", VInt <$> PersonUpdate.death_year person_data);
    ("occupation", VList <$> PersonUpdate.occupation person_data);
    ("specialty", VList <$> PersonUpdate.specialty person_data);
    ("hobby", VList <$> PersonUpdate.hobby person_data);
    ("achievement", VStr <$> PersonUpdate.achievement person_data);
    ("female_experience", VList <$> PersonUpdate.female_experience person_data);
    ("type", VStr <$> PersonUpdate.type person_data);
    ("frequency", VInt <$> PersonUpdate.frequency person_data);
    ("degree", VInt <$> PersonUpdate.degree person_data);
    ("description", VStr <$> PersonUpdate.description person_data);
    ("human_readable_id", VStr <$> PersonUpdate.human_readable_id person_data);
    ("knowledge_source", VStr <$> PersonUpdate.knowledge_source person_data);
    ("is_verified", VBool <$> PersonUpdate.is_verified person_data) ].

(** [update_fields] with [update_params]: one entry per field that is not
    [None]. *)
Definition update_fields (person_data : PersonUpdate.t) : list (string * Value) :=
  non_null (update_table person_data).

(** [sql] after [db.add(u); await db.commit()] for an object that is
    already a row: the row with its primary key takes the object's state. *)
Definition sql_commit (sql : SqlDb) (u : User) : SqlDb :=
  (λ row, if Z.eqb (user_id row) (user_id u) then u else row) <$> sql.

(** The key the table gives a new row. *)
Definition next_id (sql : SqlDb) : Z :=
  (1 + foldr Z.max 0 (user_id <$> sql))%Z.

(** [email.split("@")[0]]. *)
Fixpoint before_at (s : string) : string :=
  match s with
  | EmptyString => ""
  | String c rest => if Ascii.eqb c "@"%char then "" else String c (before_at rest)
  end.

Section Writes.

Variable uuid4_hex : nat → string.

(** [datetime.now().isoformat()], the time a write stores. *)
Variable now_iso : string.

(** [datetime.now()] as [create_person] reads it again at line 143, for the
    response, after the write. A [datetime] is kept as its ISO text. *)
Variable now : string.

(** [datetime.fromisoformat]: [None] when it raises [ValueError]. A
    [datetime] is kept as its ISO text. *)
Variable fromisoformat : string → option string.

(** [get_password_hash] of [services/user_service.py] (bcrypt). *)
Variable get_password_hash : string → string.

(** [PersonResponse(id=p.get("id"), ...)] as the person handlers build it
    from a stored node. *)
Definition person_response_of (p : gmap string Value) : Res PersonResponse.t :=
  created_at_arg ←
    (if truthy (p !! "created_at") then
       match p !! "created_at" with
       | Some (VStr s) =>
           match fromisoformat s with
           | Some d => Ok (Some d)
           | None => Raise (ValueError "Invalid isoformat string")
           end
       | _ => Raise (Exception "TypeError")
       end
     else Ok None);
  id ← as_str (p !! "id");
  name ← as_str (p !! "name");
  birth_year ← as_opt_int (p !! "birth_year");
  death_year ← as_opt_int (p !! "death_year");
  occupation ← as_opt_list (p !! "occupation");
  specialty ← as_opt_list (p !! "specialty");
  hobby ← as_opt_list (p !! "hobby");
  achievement ← as_opt_str (p !! "achievement");
  female_experience ← as_opt_list (p !! "female_experience");
  type ← as_opt_str (p !! "type");
  frequency ← as_opt_int (p !! "frequency");
  degree ← as_opt_int (p !! "degree");
  description ← as_opt_str (p !! "description");
  human_readable_id ← as_opt_str (p !! "human_readable_id");
  knowledge_source ← as_opt_str (p !! "knowledge_source");
  source_type ← as_str (p !! "source_type");
  created_by ← as_opt_str (p !! "created_by");
  is_verified ← as_bool (Some (get_default p "is_verified" (VBool false)));
  created_at ← match created_at_arg with
               | Some d => Ok d
               | None => Raise (Exception "ValidationError")
               end;
  Ok {| PersonResponse.id := id; PersonResponse.name := name;
        PersonResponse.birth_year := birth_year;
        PersonResponse.death_year := death_year;
        PersonResponse.occupation := occupation;
        PersonResponse.specialty := specialty;
        PersonResponse.hobby := hobby;
        PersonResponse.achievement := achievement;
        PersonResponse.female_experience := female_experience;
        PersonResponse.type := type;
        PersonResponse.frequency := frequency;
        PersonResponse.degree := degree;
        PersonResponse.description := description;
        PersonResponse.human_readable_id := human_readable_id;
        PersonResponse.knowledge_source := knowledge_source;
        PersonResponse.source_type := source_type;
        PersonResponse.created_by := created_by;
        PersonResponse.is_verified := is_verified;
        PersonResponse.created_at := created_at;
        PersonResponse.updated_at := None |}.

(** [PUT /persons/{person_id}]: the response and the graph store the
    request leaves behind. *)
Definition update_person (db : Neo4j) (person_id : string)
    (person_data : PersonUpdate.t) (current_user : User)
    : Res PersonResponse.t * Neo4j :=
  match execute_query db (check_query person_id) with
  | Raise e =>
      (except_500_keep_http "Failed to update person: " (Raise e), db)
  | Ok [] => (Raise (HTTPException 404 "Person not found"), db)
  | Ok (_ :: _) =>
      match update_fields person_data with
      | [] => (Raise (HTTPException 400 "No fields to update"), db)
      | fields =>
          let '(result, db') := execute_write db (update_query person_id fields) in
          (except_500_keep_http "Failed to update person: "
             (result ← result;
              match result with
              | [] => Raise (HTTPException 404 "Person not found")
              | record :: _ => person_response_of (props record)
              end),
           db')
      end
  end.

(** The [params] of [create_person] (lines 90-110). *)
Definition create_person_params (person_id : string)
    (person_data : PersonCreate.t) (current_user : User)
    : list (string * option Value) :=
  [ ("id", Some (VStr person_id));
    ("name", Some (VStr (PersonCreate.name person_data)));
    ("birth_year", VInt <$> PersonCreate.birth_year person_data);
    ("death_year", VInt <$> PersonCreate.death_year person_data);
    ("occupation", VList <$> PersonCreate.occupation person_data);
    ("specialty", VList <$> PersonCreate.specialty person_data);
    ("hobby", VList <$> PersonCreate.hobby person_data);
    ("achievement", VStr <$> PersonCreate.achievement person_data);
    ("female_experience", VList <$> PersonCreate.female_experience person_data);
    ("type", VStr <$> PersonCreate.type person_data);
    ("frequency", VInt <$> PersonCreate.frequency person_data);
    ("degree", VInt <$> PersonCreate.degree person_data);
    ("description", VStr <$> PersonCreate.description person_data);
    ("human_readable_id", VStr <$> PersonCreate.human_readable_id person_data);
    ("knowledge_source", VStr <$> PersonCreate.knowledge_source person_data);
    ("source_type", Some (VStr (PersonCreate.source_type person_data)));
    ("created_by", Some (VStr (email current_user)));
    ("is_verified", Some (VBool (PersonCreate.is_verified person_data)));
    ("created_at", Some (VStr now_iso)) ].

(** The [PersonResponse] of lines 124-144: built from the request, not from
    the stored node, and dated by a second reading of the clock. *)
Definition created_person (person_id : string) (person_data : PersonCreate.t)
    (current_user : User) : PersonResponse.t :=
  {| PersonResponse.id := person_id;
     PersonResponse.name := PersonCreate.name person_data;
     PersonResponse.birth_year := PersonCreate.birth_year person_data;
     PersonResponse.death_year := PersonCreate.death_year person_data;
     PersonResponse.occupation := PersonCreate.occupation person_data;
     PersonResponse.specialty := PersonCreate.specialty person_data;
     PersonResponse.hobby := PersonCreate.hobby person_data;
     PersonResponse.achievement := PersonCreate.achievement person_data;
     PersonResponse.female_experience := PersonCreate.female_experience person_data;
     PersonResponse.type := PersonCreate.type person_data;
     PersonResponse.frequency := PersonCreate.frequency person_data;
     PersonResponse.degree := PersonCreate.degree person_data;
     PersonResponse.description := PersonCreate.description person_data;
     PersonResponse.human_readable_id := PersonCreate.human_readable_id person_data;
     PersonResponse.knowledge_source := PersonCreate.knowledge_source person_data;
     PersonResponse.source_type := PersonCreate.source_type person_data;
     PersonResponse.created_by := Some (email current_user);
     PersonResponse.is_verified := PersonCreate.is_verified person_data;
     PersonResponse.created_at := now;
     PersonResponse.updated_at := None |}.

(** [current_user] with [neo4j_person_id] and [is_in_graph] assigned. *)
Definition with_link (u : User) (person_id : option string) (flag : bool) : User :=
  {| user_id := user_id u; email := email u;
     hashed_password := hashed_password u; full_name := full_name u;
     is_active := is_active u;
     neo4j_person_id := person_id; is_in_graph := flag |}.

(** [POST /persons/]: the response and the two stores after the request. *)
Definition create_person (sql : SqlDb) (neo : Neo4j)
    (person_data : PersonCreate.t) (current_user : User)
    : Res PersonResponse.t * SqlDb * Neo4j :=
  let person_id := str_uuid uuid4_hex 0 in
  let '(result, neo') :=
    execute_write neo
      (create_query (create_person_params person_id person_data current_user)) in
  match result with
  | Raise e =>
      (except_500 "Failed to create person node: " (Raise e), sql, neo')
  | Ok _ =>
      let sql' :=
        match neo4j_person_id current_user with
        | None => sql_commit sql (with_link current_user (Some person_id) true)
        | Some _ => sql
        end in
      (Ok (created_person person_id person_data current_user), sql', neo')
  end.

(** [user_create.full_name or user_create.email.split("@")[0]]. *)
Definition display_name (user_create : UserCreate.t) : string :=
  match UserCreate.full_name user_create with
  | Some n => if String.eqb n "" then before_at (UserCreate.email user_create) else n
  | None => before_at (UserCreate.email user_create)
  end.

(** The [params] of [create_user] (lines 77-94). *)
Definition create_user_params (person_id : string) (user_create : UserCreate.t)
    : list (string * option Value) :=
  [ ("id", Some (VStr person_id));
    ("name", Some (VStr (display_name user_create)));
    ("birth_year", Some (VInt 1995));
    ("occupation", Some (VList ["User"]));
    ("specialty", Some (VList ["User"]));
    ("achievement", Some (VStr "New user registration"));
    ("type", Some (VStr "user"));
    ("frequency", Some (VInt 1));
    ("degree", Some (VInt 1));
    ("description", Some (VStr ("用户 " ++ display_name user_create ++ " 的个人档案")));
    ("human_readable_id", Some (VStr "0"));
    ("knowledge_source", Some (VStr "用户创建"));
    ("source_type", Some (VStr "user_created"));
    ("created_by", Some (VStr (UserCreate.email user_create)));
    ("is_verified", Some (VBool false));
    ("created_at", Some (VStr now_iso)) ].

(** [create_user] of [services/user_service.py]: the user it returns and
    the two stores after the call. *)
Definition create_user (sql : SqlDb) (neo : Neo4j) (user_create : UserCreate.t)
    : Res User * SqlDb * Neo4j :=
  match get_user_by_email sql (UserCreate.email user_create) with
  | Raise e => (Raise e, sql, neo)
  | Ok (Some _) => (Raise (ValueError "Email already registered"), sql, neo)
  | Ok None =>
      let db_user :=
        {| user_id := next_id sql;
           email := UserCreate.email user_create;
           hashed_password := get_password_hash (UserCreate.password user_create);
           full_name := UserCreate.full_name user_create;
           is_active := true;
           neo4j_person_id := None;
           is_in_graph := false |} in
      let sql := (sql ++ [db_user])%list in
      let person_id := str_uuid uuid4_hex 0 in
      let '(result, neo') :=
        execute_write neo (create_query (create_user_params person_id user_create)) in
      let tried : Res unit :=
        result ← result;
        match result with
        | [] => Raise (Exception "Failed to create Person node in Neo4j")
        | _ :: _ => Ok tt
        end in
      match tried with
      | Ok _ =>
          let db_user := with_link db_user (Some person_id) true in
          (Ok db_user, sql_commit sql db_user, neo')
      | Raise _ =>
          let db_user := with_link db_user None false in
          (Ok db_user, sql_commit sql db_user, neo')
      end
  end.

(** [POST /auth/register] of [api/auth.py]. *)
Definition register (sql : SqlDb) (neo : Neo4j) (register_data : UserCreate.t)
    : Res User * SqlDb * Neo4j :=
  let '(result, sql', neo') := create_user sql neo register_data in
  (match result with
   | Ok user => Ok user
   | Raise (ValueError msg) => Raise (HTTPException 400 msg)
   | Raise _ => Raise (HTTPException 500 "Registration failed")
   end, sql', neo').

End Writes.

(** The value a request supplies for the property [k]: the field of the
    [PersonUpdate] body with that name, when it is not [None]. *)
Definition supplied (person_data : PersonUpdate.t) (k : string) : option Value :=
  match dict_get (update_table person_data) k with
  | Some (Some v) => Some v
  | _ => None
  end.

Definition rename_ada : PersonUpdate.t :=
  {| PersonUpdate.name := Some "Ada Lovelace"; PersonUpdate.birth_year := Some 1815%Z;
     PersonUpdate.death_year := None; PersonUpdate.occupation := None;
     PersonUpdate.specialty := None; PersonUpdate.hobby := None;
     PersonUpdate.achievement := None; PersonUpdate.female_experience := None;
     PersonUpdate.type := None; PersonUpdate.frequency := None;
     PersonUpdate.degree := None; PersonUpdate.description := None;
     PersonUpdate.human_readable_id := None;
     PersonUpdate.knowledge_source := None;
     PersonUpdate.is_verified := None |}.

(** ** Example stores *)

Definition mk_node (l : list (string * Value)) : Node :=
  {| props := list_to_map l |}.

(** An exception that is an [HTTPException]. *)
Definition is_http (e : PyExc) : bool :=
  match e with HTTPException _ _ => true | _ => false end.

(** A response with another creation time. *)
Definition with_created_at (d : string) (resp : PersonResponse.t) : PersonResponse.t :=
  {| PersonResponse.id := PersonResponse.id resp;
     PersonResponse.name := PersonResponse.name resp;
     PersonResponse.birth_year := PersonResponse.birth_year resp;
     PersonResponse.death_year := PersonResponse.death_year resp;
     PersonResponse.occupation := PersonResponse.occupation resp;
     PersonResponse.specialty := PersonResponse.specialty resp;
     PersonResponse.hobby := PersonResponse.hobby resp;
     PersonResponse.achievement := PersonResponse.achievement resp;
     PersonResponse.female_experience := PersonResponse.female_experience resp;
     PersonResponse.type := PersonResponse.type resp;
     PersonResponse.frequency := PersonResponse.frequency resp;
     PersonResponse.degree := PersonResponse.degree resp;
     PersonResponse.description := PersonResponse.description resp;
     PersonResponse.human_readable_id := PersonResponse.human_readable_id resp;
     PersonResponse.knowledge_source := PersonResponse.knowledge_source resp;
     PersonResponse.source_type := PersonResponse.source_type resp;
     PersonResponse.created_by := PersonResponse.created_by resp;
     PersonResponse.is_verified := PersonResponse.is_verified resp;
     PersonResponse.created_at := d;
     PersonResponse.updated_at := PersonResponse.updated_at resp |}.

(** ** Reads of [api/persons.py] *)

Section PersonReads.

Variable fromisoformat : string → option string.

(** [GET /persons/]. *)
Definition get_persons (db : Neo4j) (skip limit : Z) (current_user : User)
    : Res (list PersonResponse.t) :=
  except_500 "Failed to retrieve persons: "
    (result ← execute_query db (nodes_query_all skip limit);
     mapM (λ record, person_response_of fromisoformat (props record)) result).

(** [GET /persons/{person_id}]: the first person with that id. *)
Definition get_person (db : Neo4j) (person_id : string) (current_user : User)
    : Res PersonResponse.t :=
  except_500_keep_http "Failed to retrieve person: "
    (result ← execute_query db (check_query person_id);
     match result with
     | [] => Raise (HTTPException 404 "Person not found")
     | record :: _ => person_response_of fromisoformat (props record)
     end).

(** [get_my_person]: the test on the caller's link is made before the
    [try]; an empty [neo4j_person_id] is as good as none. *)
Definition get_my_person (db : Neo4j) (current_user : User)
    : Res PersonResponse.t :=
  match neo4j_person_id current_user with
  | Some pid =>
      if (negb (is_in_graph current_user) || String.eqb pid "")%bool
      then Raise (HTTPException 404 "Person node not found for current user")
      else
        except_500_keep_http "Failed to retrieve person: "
          (result ← execute_query db (check_query pid);
           match result with
           | [] => Raise (HTTPException 404 "Person node not found")
           | record :: _ => person_response_of fromisoformat (props record)
           end)
  | None => Raise (HTTPException 404 "Person node not found for current user")
  end.

End PersonReads.

(** ** The routes of [api/persons.py], in the order they are registered *)

Inductive Method := GET | POST | PUT.

#[global] Instance Method_eq_dec : EqDecision Method.
Proof. solve_decision. Defined.

(** A segment of a route path: literal text or a path parameter
    [{name}], which matches any non-empty text without a slash. *)
Inductive Seg :=
  | Lit (s : string)
  | Param.

(** The endpoint functions of the router. *)
Inductive PersonsEndpoint :=
  | Ep_create_person
  | Ep_get_persons
  | Ep_get_person (person_id : string)
  | Ep_update_person (person_id : string)
  | Ep_get_my_person.

(** The text of a path after its leading slash, cut at the slashes:
    ["/"] is one empty segment, ["/me"] is the segment ["me"]. *)
Fixpoint split_slash (s : string) : list string :=
  match s with
  | EmptyString => [""]
  | String c rest =>
      if Ascii.eqb c "/"%char then "" :: split_slash rest
      else match split_slash rest with
           | seg :: segs => String c seg :: segs
           | [] => [String c ""]
           end
  end.

Definition path_segments (path : string) : option (list string) :=
  match path with
  | String c rest => if Ascii.eqb c "/"%char then Some (split_slash rest) else None
  | EmptyString => None
  end.

(** The parameters a path binds when it matches a route path in full. *)
Fixpoint match_segs (pattern : list Seg) (segs : list string) : option (list string) :=
  match pattern, segs with
  | [], [] => Some []
  | Lit s :: pattern', seg :: segs' =>
      if String.eqb s seg then match_segs pattern' segs' else None
  | Param :: pattern', seg :: segs' =>
      if String.eqb seg "" then None
      else (λ params, seg :: params) <$> match_segs pattern' segs'
  | _, _ => None
  end.

(** The decorators of [api/persons.py] from top to bottom: [POST /],
    [GET /], [GET /{person_id}], [PUT /{person_id}], [GET /me]. *)
Definition persons_routes : list (Method * list Seg * (list string → PersonsEndpoint)) :=
  [ (POST, [Lit ""], λ _, Ep_create_person);
    (GET, [Lit ""], λ _, Ep_get_persons);
    (GET, [Param], λ params, Ep_get_person (default "" (head params)));
    (PUT, [Param], λ params, Ep_update_person (default "" (head params)));
    (GET, [Lit "me"], λ _, Ep_get_my_person) ].

(** The router serves a request with the first route, in registration
    order, whose path and method both match. [path] is the path below the
    router's prefix [/api/persons]. *)
Fixpoint dispatch {E} (routes : list (Method * list Seg * (list string → E)))
    (method : Method) (segs : list string) : option E :=
  match routes with
  | [] => None
  | (m, pattern, endpoint) :: rest =>
      match match_segs pattern segs with
      | Some params =>
          if bool_decide (m = method) then Some (endpoint params)
          else dispatch rest method segs
      | None => dispatch rest method segs
      end
  end.

Definition persons_router (method : Method) (path : string) : option PersonsEndpoint :=
  segs ← path_segments path;
  dispatch persons_routes method segs.

(** ** Login: [services/user_service.py] and [api/auth.py] *)

Record Token := {
  access_token : string;
  token_type : string
}.

Section Login.

(** [verify_password]: [pwd_context.verify(plain, hashed)] on the hashes
    the service stores. *)
Variable verify_password : string → string → bool.

(** [create_access_token(data={"sub": email})]: the signed token that
    carries the e-mail as its subject. *)
Variable create_access_token : string → string.

(** [authenticate_user]. *)
Definition authenticate_user (db : SqlDb) (email_ password : string)
    : Res (option User) :=
  user ← get_user_by_email db email_;
  match user with
  | None => Ok None
  | Some user =>
      if negb (verify_password password (hashed_password user))
      then Ok None
      else Ok (Some user)
  end.

(** [POST /auth/login] and [POST /auth/login-json]: the two handlers have
    the same body, on the form's [username] and on the body's [email]. *)
Definition login (db : SqlDb) (username password : string) : Res Token :=
  user ← authenticate_user db username password;
  match user with
  | None => Raise (HTTPException 401 "Incorrect email or password")
  | Some user =>
      if negb (is_active user)
      then Raise (HTTPException 400 "Inactive user")
      else Ok {| access_token := create_access_token (email user);
                 token_type := "bearer" |}
  end.

Definition login_json (db : SqlDb) (email_ password : string) : Res Token :=
  login db email_ password.

End Login.

(** *** The generic shape of records that carry their identifiers *)




(** *** The search of the specification *)

(** A property that holds a string, and the first element of a property
    that holds a list. *)
Definition str_prop (m : gmap string Value) (k : string) : option string :=
  match m !! k with Some (VStr s) => Some s | _ => None end.

Definition first_of (m : gmap string Value) (k : string) : option string :=
  match m !! k with Some (VList (s :: _)) => Some s | _ => None end.

(** [q] is a case-insensitive substring of [s]: it occurs in [s] once the
    case of both is folded, by the folding [toLower] of the store. *)
Definition ci_substring (toLower : string → string) (q s : string) : bool :=
  contains (toLower s) (toLower q).

(** The texts the specification searches: name, first element of
    occupation, specialty and hobby, achievement, description and type. *)
Definition searched_texts (p : Node) : list (option string) :=
  let m := props p in
  [ str_prop m "name"; first_of m "occupation"; first_of m "specialty";
    first_of m "hobby"; str_prop m "achievement"; str_prop m "description";
    str_prop m "type" ].

(** [q] occurs in the text [o], when there is one. *)
Definition hit (toLower : string → string) (q : string) (o : option string)
    : bool :=
  match o with Some s => ci_substring toLower q s | None => false end.

Definition matches (toLower : string → string) (q : string) (p : Node) : bool :=
  existsb (hit toLower q) (searched_texts p).

(** A person stored with the types of [PersonInDB]: text properties hold
    strings and array properties hold lists, where they are set. *)
Definition is_str_or_null (v : option Value) : bool :=
  match v with None | Some (VStr _) => true | _ => false end.



(** A person whose [id] and [name] are strings. *)
Definition has_str_id_name (p : Node) : bool :=
  match props p !! "id", props p !! "name" with
  | Some (VStr _), Some (VStr _) => true
  | _, _ => false
  end.

(** *** Stores the network handler can shape *)

(** A person whose [id] and [name] are strings where they are set, and a
    relationship whose [id] and [type] properties are. *)
Definition node_typed (p : Node) : bool :=
  (is_str_or_null (props p !! "id") && is_str_or_null (props p !! "name"))%bool.

Definition rel_typed (x : Rel) : bool :=
  (is_str_or_null (rel_props x !! "id")
   && is_str_or_null (rel_props x !! "type"))%bool.

Definition row_typed (record : EdgeRow) : bool :=
  (is_str_or_null (source_id record) && is_str_or_null (target_id record)
   && rel_typed (r record))%bool.

(** The store with every relationship given another label. *)
Definition relabel_rel (f : Rel → string) (x : Rel) : Rel :=
  {| rel_start := rel_start x; rel_end := rel_end x; rel_type := f x;
     rel_props := rel_props x |}.

Definition relabel (f : Rel → string) (db : Neo4j) : Neo4j :=
  {| up := up db; persons := persons db; rels := relabel_rel f <$> rels db |}.

Definition relabel_row (f : Rel → string) (record : EdgeRow) : EdgeRow :=
  {| source_id := source_id record; target_id := target_id record;
     r := relabel_rel f (r record) |}.

Definition relabel_match (f : Rel → string) (t : Node * Rel * Node)
    : Node * Rel * Node :=
  (t.1.1, relabel_rel f t.1.2, t.2).

(** [writer] occurs in the second element of the occupation only. *)
Definition search_db : Neo4j :=
  {| up := true;
     persons :=
       [ mk_node [("id", VStr "a"); ("name", VStr "Ada");
                  ("occupation", VList ["Mathematician"; "Writer"])];
         mk_node [("id", VStr "g"); ("name", VStr "Grace");
                  ("occupation", VList ["Writer"])] ];
     rels := [] |}.

(** A person whose first occupation is [Writer] and whose [name] holds a
    number, as a node written to the store from outside the API can. *)
Definition untyped_db : Neo4j :=
  {| up := true;
     persons :=
       [ mk_node [("id", VStr "w"); ("name", VInt 5);
                  ("occupation", VList ["Writer"])] ];
     rels := [] |}.


(** A user-created person stored before a public one that has neither an
    [id] nor a [name]. *)
Definition anon_id_db : Neo4j :=
  {| up := true;
     persons :=
       [ mk_node [("id", VStr "p"); ("name", VStr "Pat"); ("source_type", VStr "user_created")];
         mk_node [("source_type", VStr "system")] ];
     rels := [] |}.

(** A complete person, as [create_person] stores one. *)
Definition search_dated_db : Neo4j :=
  {| up := true;
     persons :=
       [ mk_node [("id", VStr "a"); ("name", VStr "Ada");
                  ("source_type", VStr "user_created");
                  ("created_by", VStr "alice@example.org");
                  ("is_verified", VBool false);
                  ("created_at", VStr "2024-01-01T00:00:00")] ];
     rels := [] |}.

(** A public person related to a user-created one by a user-created
    relationship. *)
Definition leak_db : Neo4j :=
  {| up := true;
     persons :=
       [ mk_node [("id", VStr "a"); ("name", VStr "Ada"); ("source_type", VStr "system")];
         mk_node [("id", VStr "b"); ("name", VStr "Bob"); ("source_type", VStr "user_created")] ];
     rels :=
       [ {| rel_start := 0; rel_end := 1; rel_type := "RELATED_TO";
            rel_props := list_to_map [("id", VStr "r1"); ("source_type", VStr "user_created")] |} ] |}.

Definition zero_uuid : nat → string := λ _, "00000000000000000000000000000000".

(** A person stored without an [id]. *)
Definition noid_db : Neo4j :=
  {| up := true;
     persons := [ mk_node [("name", VStr "Ada Lovelace"); ("source_type", VStr "system")] ];
     rels := [] |}.

Definition alice : User :=
  {| user_id := 1; email := "alice@example.org"; hashed_password := "h";
     full_name := Some "Alice"; is_active := true;
     neo4j_person_id := None; is_in_graph := false |}.

Definition bob_inactive : User :=
  {| user_id := 2; email := "bob@example.org"; hashed_password := "h";
     full_name := None; is_active := false;
     neo4j_person_id := Some "p-bob"; is_in_graph := true |}.

Definition users_db : SqlDb := [alice; bob_inactive].

(** A token decoder that accepts three tokens. *)
Definition demo_jwt (token : string) : option (option string) :=
  if String.eqb token "t-alice" then Some (Some "alice@example.org")
  else if String.eqb token "t-bob" then Some (Some "bob@example.org")
  else if String.eqb token "t-ghost" then Some (Some "ghost@example.org")
  else None.

(** Two public persons joined by a relationship labelled [KNOWS] only. *)
Definition knows_db : Neo4j :=
  {| up := true;
     persons :=
       [ mk_node [("id", VStr "a"); ("name", VStr "Ada"); ("source_type", VStr "system")];
         mk_node [("id", VStr "c"); ("name", VStr "Cy"); ("source_type", VStr "public")] ];
     rels :=
       [ {| rel_start := 0; rel_end := 1; rel_type := "KNOWS";
            rel_props := list_to_map [("id", VStr "k1"); ("strength", VInt 3)] |} ] |}.

(** A store that cannot be reached. *)
Definition down_db : Neo4j := {| up := false; persons := []; rels := [] |}.

Definition carol_create : UserCreate.t :=
  {| UserCreate.email := "carol@example.org";
     UserCreate.full_name := None;
     UserCreate.password := "secret" |}.

Definition ada_create : PersonCreate.t :=
  {| PersonCreate.name := "Ada"; PersonCreate.birth_year := Some 1815%Z;
     PersonCreate.death_year := Some 1852%Z;
     PersonCreate.occupation := Some ["mathematician"; "writer"];
     PersonCreate.specialty := None; PersonCreate.hobby := None;
     PersonCreate.achievement := None; PersonCreate.female_experience := None;
     PersonCreate.type := None; PersonCreate.frequency := None;
     PersonCreate.degree := None; PersonCreate.description := None;
     PersonCreate.human_readable_id := None;
     PersonCreate.knowledge_source := None;
     PersonCreate.source_type := "user_created";
     PersonCreate.created_by := None; PersonCreate.is_verified := false |}.

Definition id_hash (password : string) : string := "hashed:" ++ password.

(** Oracles for the examples: a hash that is checked by recomputing it,
    and a token that carries its subject after a fixed prefix. *)
Definition demo_verify (plain hashed : string) : bool :=
  String.eqb hashed (id_hash plain).

Definition demo_token (subject : string) : string := "tok:" ++ subject.

Definition demo_token_decode (token : string) : option (option string) :=
  if prefixb "tok:" token
  then Some (Some (substring 4 (String.length token - 4) token))
  else None.

(** * Properties *)

(** ** Visibility of the network endpoints *)

(** C1, on the code: an anonymous [GET /graph/network] over [leak_db]
    returns the relationship from the public person [a] to the
    user-created person [b], although [b] itself is filtered out of the
    nodes and the relationship's own [source_type] is [user_created]. *)
Theorem anonymous_network_leaks_private_edge
    (uuid4_hex : nat → string) (lower : string → string) :
  ∃ g e,
    get_graph_network uuid4_hex lower leak_db 0 100 0 100 None = Ok g
    ∧ e ∈ edges g
    ∧ e_source e = "a" ∧ e_target e = "b"
    ∧ dict_get (e_properties e) "source_type" = Some (Some (VStr "user_created"))
    ∧ (persons leak_db !! 1%nat) ≫= (λ b, props b !! "source_type")
        = Some (VStr "user_created")
    ∧ "b" ∉ n_id <$> nodes g.
Proof.
  eexists _, _. split; [vm_compute; reflexivity|].
  split; [apply list_elem_of_here|].
  repeat split; try reflexivity.
  cbn. rewrite list_elem_of_singleton. discriminate.
Qed.

(** ** Strict and optional authentication *)

Section AuthFacts.
Variable jwt_decode : string → option (option string).

(** With a bearer token in the request, the dependency hands the token to
    the function. *)
Lemma oauth2_scheme_bearer (token : string) :
  oauth2_scheme {| authorization := Some ("Bearer " ++ token) |} = Ok token.
Proof. reflexivity. Qed.

(** Strict mode: each failure of a presented token is an HTTP error. *)
Lemma strict_rejects_invalid_token token db :
  verify_token jwt_decode token = None →
  get_current_user jwt_decode token db
    = Raise (HTTPException 401 "Could not validate credentials").
Proof. intros H. unfold get_current_user. by rewrite H. Qed.

Lemma strict_rejects_unknown_user token e db :
  verify_token jwt_decode token = Some e →
  get_user_by_email db e = Ok None →
  get_current_user jwt_decode token db = Raise (HTTPException 404 "User not found").
Proof. intros H1 H2. unfold get_current_user. rewrite H1. cbn. by rewrite H2. Qed.

Lemma strict_rejects_inactive_user token e u db :
  verify_token jwt_decode token = Some e →
  get_user_by_email db e = Ok (Some u) →
  is_active u = false →
  get_current_user jwt_decode token db = Raise (HTTPException 400 "Inactive user").
Proof.
  intros H1 H2 H3. unfold get_current_user. rewrite H1. cbn. rewrite H2. cbn.
  by rewrite H3.
Qed.

(** The function [get_current_user_or_none] returns a user only when the
    strict function does, and [None] in every other case. *)
Lemma optional_agrees_with_strict token db :
  get_current_user_or_none jwt_decode token db
    = match get_current_user jwt_decode token db with
      | Ok u => Some u
      | Raise _ => None
      end.
Proof.
  unfold get_current_user_or_none, get_current_user.
  destruct (verify_token jwt_decode token) as [e|]; [|done].
  destruct (get_user_by_email db e) as [[u|]|]; cbn; try done.
  by destruct (is_active u).
Qed.

(** Once a bearer token is presented, the optional dependency never
    raises. *)
Lemma optional_serves_presented_token token db :
  depends_get_current_user_or_none jwt_decode
      {| authorization := Some ("Bearer " ++ token) |} db
    = Ok (get_current_user_or_none jwt_decode token db).
Proof. reflexivity. Qed.

(** C2, on the code: a request without an [Authorization] header is
    rejected with 401 by [Depends(oauth2_scheme)] on the optional path too:
    [get_current_user_or_none] is never entered, and the caller is not
    classified as anonymous. *)
Theorem optional_auth_rejects_missing_token (db : SqlDb) :
  depends_get_current_user_or_none jwt_decode {| authorization := None |} db
    = Raise (HTTPException 401 "Not authenticated")
  ∧ depends_get_current_user jwt_decode {| authorization := None |} db
    = Raise (HTTPException 401 "Not authenticated").
Proof. split; reflexivity. Qed.

End AuthFacts.

Example strict_and_optional_on_users_db :
  get_current_user demo_jwt "t-alice" users_db = Ok alice
  ∧ get_current_user_or_none demo_jwt "t-alice" users_db = Some alice
  ∧ get_current_user demo_jwt "garbage" users_db
      = Raise (HTTPException 401 "Could not validate credentials")
  ∧ get_current_user_or_none demo_jwt "garbage" users_db = None
  ∧ get_current_user demo_jwt "t-ghost" users_db
      = Raise (HTTPException 404 "User not found")
  ∧ get_current_user_or_none demo_jwt "t-ghost" users_db = None
  ∧ get_current_user demo_jwt "t-bob" users_db
      = Raise (HTTPException 400 "Inactive user")
  ∧ get_current_user_or_none demo_jwt "t-bob" users_db = None.
Proof. repeat split; reflexivity. Qed.

(** ** Identifier fallback *)

(** [GET /graph/network] synthesizes an identifier from the name when the
    store holds none. *)
Lemma network_synthesizes_id (u : option User) :
  ∃ n, get_graph_network zero_uuid ascii_lower noid_db 0 100 0 100 u
         = Ok {| nodes := [n]; edges := [] |}
       ∧ n_id n = "ada-lovelace-00000000".
Proof. destruct u; eexists; split; vm_compute; reflexivity. Qed.

(** C8, on the code: [GET /graph/nodes] and [GET /graph/nodes/search] pass
    the stored [id] on as it is; for a person without one, [GraphNode]
    rejects [None] and the request ends in a 500 instead of a node with a
    fallback identifier. *)
Theorem node_listing_fails_without_id (u : User) :
  get_graph_nodes noid_db 0 100 u
    = Raise (HTTPException 500 "Failed to retrieve graph nodes: ValidationError")
  ∧ search_graph_nodes ascii_lower noid_db "ada" u
    = Raise (HTTPException 500 "Failed to search graph nodes: ValidationError").
Proof. split; vm_compute; reflexivity. Qed.

(** ** Neighbor lookup *)

Lemma take_le {A} (n : nat) (l : list A) : (length (take n l) ≤ n)%nat.
Proof. rewrite length_take. lia. Qed.

(** At most ten rows come back from either query. *)
Lemma connections_query_cap node_id db (u : option User) rows :
  (match u with None => connections_query_anon | Some _ => connections_query_all end)
    node_id db = Ok rows →
  (length rows ≤ 10)%nat.
Proof.
  destruct u; intros [= <-]; apply take_le.
Qed.

(** Only relationships labelled [RELATED_TO] are traversed. *)
Lemma related_of_type db i p t :
  t ∈ related_of db i p → rel_type t.1.2 = "RELATED_TO".
Proof.
  unfold related_of. rewrite list_elem_of_omap. intros (r & _ & Hr).
  destruct (String.eqb (rel_type r) "RELATED_TO") eqn:E; [|done].
  apply String.eqb_eq in E. cbn in Hr.
  destruct (rel_start r =? i)%nat.
  - destruct (persons db !! rel_end r); simplify_eq/=. done.
  - destruct (rel_end r =? i)%nat; [|done].
    destruct (persons db !! rel_start r); simplify_eq/=. done.
Qed.

Lemma match_related_type db node_id t :
  t ∈ match_related db node_id → rel_type t.1.2 = "RELATED_TO".
Proof.
  unfold match_related. intros H.
  apply list_elem_of_join in H as (l & Ht & Hl).
  apply list_elem_of_lookup in Hl as (i & Hi).
  rewrite list_lookup_imap in Hi.
  destruct (persons db !! i) as [p|]; [|done]. cbn in Hi.
  destruct (has_id node_id p); simplify_eq.
  - by eapply related_of_type.
  - by apply not_elem_of_nil in Ht.
Qed.

(** A store without [RELATED_TO] relationships gives an empty lookup. *)
Lemma match_related_none db node_id :
  Forall (λ r, rel_type r ≠ "RELATED_TO") (rels db) →
  match_related db node_id = [].
Proof.
  intros Hall. destruct (match_related db node_id) as [|t l] eqn:E; [done|].
  assert (Ht : t ∈ match_related db node_id) by (rewrite E; left).
  pose proof (match_related_type _ _ _ Ht) as Hty.
  unfold match_related in Ht.
  apply list_elem_of_join in Ht as (l' & Ht & Hl).
  apply list_elem_of_lookup in Hl as (i & Hi).
  rewrite list_lookup_imap in Hi.
  destruct (persons db !! i) as [p|]; [|done]. cbn in Hi.
  destruct (has_id node_id p); simplify_eq; [|by apply not_elem_of_nil in Ht].
  unfold related_of in Ht. apply list_elem_of_omap in Ht as (r & Hr & Hsome).
  rewrite Forall_forall in Hall. specialize (Hall r Hr).
  destruct (String.eqb (rel_type r) "RELATED_TO") eqn:E'.
  - apply String.eqb_eq in E'. done.
  - cbn in Hsome. done.
Qed.

(** A relationship with another label is invisible to the lookup, while
    [GET /graph/edges] lists it. *)
Example knows_invisible_to_lookup :
  get_node_connections knows_db "a" (Some alice)
    = Ok (PyDict [("connections", PyList [])])
  ∧ get_node_connections knows_db "a" None
    = Ok (PyDict [("connections", PyList [])])
  ∧ ∃ e, get_graph_edges zero_uuid knows_db 0 100 alice = Ok [e]
         ∧ e_source e = "a" ∧ e_target e = "c".
Proof. split; [|split]; [reflexivity..|]. eexists. vm_compute. done. Qed.

(** C6, on the code: whatever the store and the caller, the value the
    handler returns is the dictionary [{"connections": [...]}] (its list
    capped at ten records), not a list: it does not fit the route's own
    [response_model=List[dict]], and the request ends in an internal
    error. *)
Theorem connections_response_is_not_a_list db node_id (u : option User) v :
  get_node_connections db node_id u = Ok v →
  (∃ l, v = PyDict [("connections", PyList l)] ∧ (length l ≤ 10)%nat)
  ∧ is_List_dict v = false
  ∧ route_get_node_connections db node_id u
      = Raise (HTTPException 500 "Internal Server Error").
Proof.
  intros H. unfold route_get_node_connections. rewrite H. cbn.
  unfold get_node_connections, execute_query in H.
  destruct (up db); [|by destruct u].
  assert (∃ rows, (length rows ≤ 10)%nat ∧
            v = PyDict [("connections", PyList (connection_dict <$> rows))])
    as (rows & Hlen & ->).
  { destruct u; cbn in H; injection H as <-; eexists; (split; [|reflexivity]);
      apply take_le. }
  split; [|done]. eexists. split; [done|]. by rewrite length_fmap.
Qed.

Lemma connections_response_is_not_a_list_witness :
  get_node_connections leak_db "a" (Some alice)
    = Ok (PyDict [("connections",
            PyList [PyDict [("target_id", PyV (VStr "b"));
                            ("strength", PyNone); ("description", PyNone)]])])
  ∧ route_get_node_connections leak_db "a" (Some alice)
      = Raise (HTTPException 500 "Internal Server Error").
Proof.
  split; [reflexivity|].
  apply (connections_response_is_not_a_list leak_db "a" (Some alice) _ eq_refl).
Defined.

(** ** Partial update *)

Lemma filter_nonempty {A} (f : A → bool) (l : list A) (x : A) :
  x ∈ l → f x = true → List.filter f l ≠ [].
Proof.
  intros Hin Hf Hnil.
  assert (In x (List.filter f l)) as Hx
    by (apply filter_In; split; [by apply list_elem_of_In|done]).
  rewrite Hnil in Hx. done.
Qed.

Section UpdateFacts.
Variable fromisoformat : string → option string.

(** C4: an update of an existing person whose body sets no field is
    rejected with 400, and the graph store is the one the request found. *)
Theorem update_without_fields_is_rejected db person_id (u : User) p :
  up db = true →
  p ∈ persons db →
  has_id person_id p = true →
  update_person fromisoformat db person_id PersonUpdate.empty u
    = (Raise (HTTPException 400 "No fields to update"), db).
Proof.
  intros Hup Hin Hid. unfold update_person, execute_query, check_query.
  rewrite Hup.
  pose proof (filter_nonempty _ _ _ Hin Hid) as Hne.
  destruct (List.filter (has_id person_id) (persons db)); [done|].
  reflexivity.
Qed.

End UpdateFacts.

Lemma update_without_fields_is_rejected_witness :
  update_person (λ s, Some s) leak_db "a" PersonUpdate.empty alice
    = (Raise (HTTPException 400 "No fields to update"), leak_db).
Proof.
  apply (update_without_fields_is_rejected (λ s, Some s) leak_db "a" alice
           (mk_node [("id", VStr "a"); ("name", VStr "Ada"); ("source_type", VStr "system")])).
  - reflexivity.
  - apply list_elem_of_here.
  - vm_compute. reflexivity.
Defined.

(** ** Registration and the link between a user and a person *)

Lemma next_id_fresh (sql : SqlDb) row :
  row ∈ sql → (user_id row < next_id sql)%Z.
Proof.
  unfold next_id. induction sql as [|r sql IH]; intros Hin.
  - by apply not_elem_of_nil in Hin.
  - apply elem_of_cons in Hin as [->|Hin]; cbn; [lia|].
    specialize (IH Hin). lia.
Qed.

Lemma sql_commit_other (sql : SqlDb) (u : User) :
  Forall (λ row, user_id row ≠ user_id u) sql → sql_commit sql u = sql.
Proof.
  unfold sql_commit. induction 1 as [|row sql Hrow _ IH]; [done|].
  cbn. rewrite IH. destruct (Z.eqb_spec (user_id row) (user_id u)); [done|].
  reflexivity.
Qed.

(** Committing a change of the row that was just inserted replaces that
    row and no other. *)
Lemma sql_commit_last (sql : SqlDb) (u u' : User) :
  user_id u = next_id sql → user_id u' = user_id u →
  sql_commit (sql ++ [u])%list u' = (sql ++ [u'])%list.
Proof.
  intros Hu Hu'. unfold sql_commit. rewrite fmap_app. f_equal.
  - apply (sql_commit_other sql u'). apply Forall_forall. intros row Hin.
    apply next_id_fresh in Hin. lia.
  - cbn. rewrite Hu', Z.eqb_refl. reflexivity.
Qed.

Section WriteFacts.
Variable uuid4_hex : nat → string.
Variable now_iso : string.
Variable now : string.
Variable get_password_hash : string → string.

(** C9: when the e-mail is free and the graph store cannot be written,
    [create_user] still inserts the user row and returns it, with
    [is_in_graph] false and no [neo4j_person_id]; no exception leaves the
    service or the [register] handler, and the graph store is untouched. *)
Theorem registration_survives_graph_failure sql neo user_create :
  up neo = false →
  get_user_by_email sql (UserCreate.email user_create) = Ok None →
  ∃ user,
    create_user uuid4_hex now_iso get_password_hash sql neo user_create
      = (Ok user, (sql ++ [user])%list, neo)
    ∧ register uuid4_hex now_iso get_password_hash sql neo user_create
      = (Ok user, (sql ++ [user])%list, neo)
    ∧ email user = UserCreate.email user_create
    ∧ is_active user = true
    ∧ is_in_graph user = false
    ∧ neo4j_person_id user = None.
Proof.
  intros Hup Hfree.
  assert (create_user uuid4_hex now_iso get_password_hash sql neo user_create
          = (Ok {| user_id := next_id sql;
                   email := UserCreate.email user_create;
                   hashed_password := get_password_hash (UserCreate.password user_create);
                   full_name := UserCreate.full_name user_create;
                   is_active := true;
                   neo4j_person_id := None;
                   is_in_graph := false |},
             (sql ++ [ {| user_id := next_id sql;
                   email := UserCreate.email user_create;
                   hashed_password := get_password_hash (UserCreate.password user_create);
                   full_name := UserCreate.full_name user_create;
                   is_active := true;
                   neo4j_person_id := None;
                   is_in_graph := false |} ])%list, neo)) as Hcreate.
  { unfold create_user. rewrite Hfree. unfold execute_write. rewrite Hup.
    cbn. rewrite sql_commit_last; done. }
  eexists. split; [exact Hcreate|].
  split; [unfold register; by rewrite Hcreate|]. done.
Qed.

(** C10: a successful [POST /persons/] by a caller without a linked person
    sets, in the caller's row, [neo4j_person_id] to the identifier of the
    new node and [is_in_graph] to true, and leaves every other row as it
    was; for a caller who already has a linked person the user table is
    unchanged. *)
Theorem create_person_links_caller sql neo person_data (current_user : User) :
  up neo = true →
  ∃ resp sql' neo',
    create_person uuid4_hex now_iso now sql neo person_data current_user
      = (Ok resp, sql', neo')
    ∧ PersonResponse.id resp = str_uuid uuid4_hex 0
    ∧ (∃ p, persons neo' = (persons neo ++ [p])%list
            ∧ props p !! "id" = Some (VStr (PersonResponse.id resp)))
    ∧ (neo4j_person_id current_user = None →
       Forall2 (λ row row',
           if Z.eqb (user_id row) (user_id current_user)
           then neo4j_person_id row' = Some (PersonResponse.id resp)
                ∧ is_in_graph row' = true
                ∧ user_id row' = user_id current_user
                ∧ email row' = email current_user
                ∧ hashed_password row' = hashed_password current_user
                ∧ full_name row' = full_name current_user
                ∧ is_active row' = is_active current_user
           else row' = row) sql sql')
    ∧ (is_Some (neo4j_person_id current_user) → sql' = sql).
Proof.
  intros Hup. unfold create_person, execute_write. rewrite Hup. cbn.
  eexists _, _, _. split; [reflexivity|]. cbn.
  split; [reflexivity|]. split.
  { eexists. split; [reflexivity|]. cbn. apply lookup_insert_eq. }
  split.
  - intros ->. unfold sql_commit. apply Forall2_fmap_r, Forall_Forall2_diag.
    apply Forall_forall. intros row _.
    cbn. destruct (Z.eqb (user_id row) (user_id current_user)); done.
  - intros [pid ->]. reflexivity.
Qed.

End WriteFacts.

Lemma registration_survives_graph_failure_witness :
  ∃ user,
    create_user zero_uuid "2024-01-01T00:00:00" id_hash users_db down_db carol_create
      = (Ok user, (users_db ++ [user])%list, down_db)
    ∧ register zero_uuid "2024-01-01T00:00:00" id_hash users_db down_db carol_create
      = (Ok user, (users_db ++ [user])%list, down_db)
    ∧ email user = "carol@example.org"
    ∧ is_active user = true
    ∧ is_in_graph user = false
    ∧ neo4j_person_id user = None.
Proof.
  apply (registration_survives_graph_failure zero_uuid "2024-01-01T00:00:00"
           id_hash users_db down_db carol_create); reflexivity.
Defined.

Lemma create_person_links_caller_witness :
  ∃ resp sql' neo',
    create_person zero_uuid "2024-01-01T00:00:00" "2024-01-01T00:00:01"
      users_db leak_db ada_create alice
      = (Ok resp, sql', neo')
    ∧ sql' !! 0%nat
        = Some {| user_id := 1; email := "alice@example.org"; hashed_password := "h";
                  full_name := Some "Alice"; is_active := true;
                  neo4j_person_id := Some "00000000-0000-0000-0000-000000000000";
                  is_in_graph := true |}
    ∧ sql' !! 1%nat = Some bob_inactive.
Proof.
  destruct (create_person_links_caller zero_uuid "2024-01-01T00:00:00"
           "2024-01-01T00:00:01"
              users_db leak_db ada_create alice eq_refl)
    as (resp & sql' & neo' & Hrun & _).
  exists resp, sql', neo'. split; [exact Hrun|].
  vm_compute in Hrun. injection Hrun as _ <- _. split; reflexivity.
Defined.

(** ** Frame of the partial update *)

Lemma dict_get_None (t : list (string * option Value)) k :
  k ∉ t.*1 → dict_get t k = None.
Proof.
  induction t as [|[k' v] t IH]; [done|]. cbn. intros Hk.
  apply not_elem_of_cons in Hk as [Hne Hk].
  destruct (String.eqb_spec k' k); [congruence|]. by apply IH.
Qed.

Lemma set_props_cons k v (l : list (string * Value)) (m : gmap string Value) :
  set_props ((k, v) :: l) m = set_props l (<[k:=v]> m).
Proof. reflexivity. Qed.

(** [SET] with the non-null entries of a table without repeated keys: a
    property takes the table's value where the table has one for it, and
    keeps its own otherwise. *)
Lemma set_props_lookup (t : list (string * option Value)) (m : gmap string Value) k :
  NoDup t.*1 →
  set_props (non_null t) m !! k
    = match dict_get t k with
      | Some (Some v) => Some v
      | _ => m !! k
      end.
Proof.
  revert m. induction t as [|[k' o] t IH]; intros m Hnd; [done|].
  apply NoDup_cons in Hnd as [Hk' Hnd]. cbn [dict_get].
  destruct o as [v|].
  - change (non_null ((k', Some v) :: t)) with ((k', v) :: non_null t).
    rewrite set_props_cons, IH by done.
    destruct (String.eqb_spec k' k) as [->|Hne].
    + rewrite (dict_get_None t k) by done. apply lookup_insert_eq.
    + by rewrite lookup_insert_ne.
  - change (non_null ((k', None) :: t)) with (non_null t).
    rewrite IH by done.
    destruct (String.eqb_spec k' k) as [->|Hne]; [|done].
    by rewrite (dict_get_None t k).
Qed.

Lemma update_table_NoDup pd : NoDup (update_table pd).*1.
Proof. cbn. compute_done. Qed.

(** [supplied] reads the fifteen fields of the body, and nothing else. *)
Lemma supplied_fields pd :
  supplied pd "name" = VStr <$> PersonUpdate.name pd
  ∧ supplied pd "birth_year" = VInt <$> PersonUpdate.birth_year pd
  ∧ supplied pd "death_year" = VInt <$> PersonUpdate.death_year pd
  ∧ supplied pd "occupation" = VList <$> PersonUpdate.occupation pd
  ∧ supplied pd "specialty" = VList <$> PersonUpdate.specialty pd
  ∧ supplied pd "hobby" = VList <$> PersonUpdate.hobby pd
  ∧ supplied pd "achievement" = VStr <$> PersonUpdate.achievement pd
  ∧ supplied pd "female_experience" = VList <$> PersonUpdate.female_experience pd
  ∧ supplied pd "type" = VStr <$> PersonUpdate.type pd
  ∧ supplied pd "frequency" = VInt <$> PersonUpdate.frequency pd
  ∧ supplied pd "degree" = VInt <$> PersonUpdate.degree pd
  ∧ supplied pd "description" = VStr <$> PersonUpdate.description pd
  ∧ supplied pd "human_readable_id" = VStr <$> PersonUpdate.human_readable_id pd
  ∧ supplied pd "knowledge_source" = VStr <$> PersonUpdate.knowledge_source pd
  ∧ supplied pd "is_verified" = VBool <$> PersonUpdate.is_verified pd.
Proof.
  unfold supplied. cbn.
  repeat split; match goal with |- context [?f <$> ?o] => by destruct o end.
Qed.

Lemma supplied_other pd k :
  k ∉ (update_table pd).*1 → supplied pd k = None.
Proof. intros H. unfold supplied. by rewrite dict_get_None. Qed.

Lemma filter_nil_false {A} (f : A → bool) (l : list A) x :
  List.filter f l = [] → x ∈ l → f x = false.
Proof.
  intros Hnil Hin. destruct (f x) eqn:E; [|done].
  by destruct (filter_nonempty f l x Hin E).
Qed.

Section FrameFacts.
Variable fromisoformat : string → option string.

(** The store a reachable store becomes under [update_person], whatever
    the response is. *)
Lemma update_person_store db person_id pd (u : User) :
  up db = true →
  (update_person fromisoformat db person_id pd u).2
    = {| up := up db;
         persons :=
           (λ p, if has_id person_id p
                 then {| props := set_props (update_fields pd) (props p) |}
                 else p) <$> persons db;
         rels := rels db |}.
Proof.
  intros Hup. unfold update_person, execute_query, execute_write, check_query.
  destruct db as [u0 ps0 rs0]; cbn [up persons rels] in *. subst u0.
  destruct (List.filter (has_id person_id) ps0) as [|p0 ps] eqn:Hf.
  - cbn [snd]. f_equal.
    rewrite <- (list_fmap_id ps0) at 1. apply list_fmap_ext.
    intros i p Hp. cbn [id].
    rewrite (filter_nil_false _ _ p Hf); [done|].
    by eapply list_elem_of_lookup_2.
  - destruct (update_fields pd) as [|f fs] eqn:Hu.
    + cbn [snd]. f_equal.
      rewrite <- (list_fmap_id ps0) at 1. apply list_fmap_ext.
      intros i p Hp. cbn [id]. destruct (has_id person_id p); [|done].
      by destruct p.
    + reflexivity.
Qed.

(** C5: under [update_person] on a reachable store, every person with the
    requested id has each supplied property overwritten with the supplied
    value and each other property as it was; every other person and every
    relationship is unchanged. *)
Theorem update_person_frame db person_id pd (u : User) :
  up db = true →
  rels (update_person fromisoformat db person_id pd u).2 = rels db
  ∧ Forall2 (λ p p',
        if has_id person_id p
        then ∀ k, props p' !! k
                  = match supplied pd k with
                    | Some v => Some v
                    | None => props p !! k
                    end
        else p' = p)
      (persons db) (persons (update_person fromisoformat db person_id pd u).2).
Proof.
  intros Hup. rewrite update_person_store by done. cbn [rels persons].
  split; [done|].
  apply Forall2_fmap_r, Forall_Forall2_diag, Forall_forall. intros p _.
  unfold compose. destruct (has_id person_id p); [|done].
  intros k. cbn [props]. unfold update_fields, supplied.
  rewrite set_props_lookup by apply update_table_NoDup.
  by destruct (dict_get (update_table pd) k) as [[v|]|].
Qed.

End FrameFacts.

Lemma update_person_frame_witness :
  ∃ a' b',
    persons (update_person (λ s, Some s) leak_db "a" rename_ada alice).2 = [a'; b']
    ∧ props a' !! "name" = Some (VStr "Ada Lovelace")
    ∧ props a' !! "birth_year" = Some (VInt 1815)
    ∧ props a' !! "source_type" = Some (VStr "system")
    ∧ props a' !! "id" = Some (VStr "a")
    ∧ Some b' = persons leak_db !! 1%nat.
Proof.
  destruct (update_person_frame (λ s, Some s) leak_db "a" rename_ada alice eq_refl)
    as [_ H].
  destruct (persons (update_person (λ s, Some s) leak_db "a" rename_ada alice).2)
    as [|a' [|b' [|]]] eqn:E;
    try (exfalso; apply Forall2_length in H; cbn in H; lia).
  exists a', b'. split; [reflexivity|].
  apply Forall2_cons in H as [Ha H]. apply Forall2_cons in H as [Hb _].
  change (has_id "a" _) with true in Ha. change (has_id "a" _) with false in Hb.
  cbn beta iota in Ha, Hb.
  rewrite !Ha, Hb. repeat split; reflexivity.
Defined.

(** ** Search *)


Section SearchFacts.
Variable toLower : string → string.






Lemma mapM_cons {A B} (f : A → Res B) x (l : list A) :
  mapM f (x :: l)
    = match f x with
      | Ok y => match mapM f l with
                | Ok k => Ok (y :: k)
                | Raise e => Raise e
                end
      | Raise e => Raise e
      end.
Proof. reflexivity. Qed.

(** [mapM] in the exception monad: it succeeds exactly when the function
    does on every element, with the results in order. *)
Lemma mapM_Ok {A B} (f : A → Res B) (l : list A) (k : list B) :
  mapM f l = Ok k ↔ Forall2 (λ x y, f x = Ok y) l k.
Proof.
  revert k. induction l as [|x l IH]; intros k.
  - change (mapM f []) with (@Ok (list B) []).
    split; [intros [= <-]; constructor | by inversion 1].
  - rewrite mapM_cons. split.
    + destruct (f x) as [y|e] eqn:Ex; [|done].
      destruct (mapM f l) as [k'|e] eqn:El; [|done].
      intros [= <-]. constructor; [done|]. by apply IH.
    + inversion 1 as [|? y ? k' Hy Hk]; subst. rewrite Hy.
      apply IH in Hk. by rewrite Hk.
Qed.

Lemma mapM_total {A B} (f : A → Res B) (l : list A) :
  Forall (λ x, ∃ y, f x = Ok y) l → ∃ k, mapM f l = Ok k.
Proof.
  induction 1 as [|x l [y Hy] _ [k Hk]]; [by eexists|].
  exists (y :: k). by rewrite mapM_cons, Hy, Hk.
Qed.



End SearchFacts.


(** C7, on the code: the claim promises a match to every person in one of
    whose searched texts the query occurs. [untyped_db] holds one person,
    whose first occupation is [Writer] and whose name is a number: the
    query [writer] occurs in the first occupation, but [toLower(p.name)]
    fails the whole query and the request ends in a 500 without a match. *)
Lemma search_fails_on_untyped_person :
  Forall (λ p, matches ascii_lower "writer" p = true) (persons untyped_db)
  ∧ search_graph_nodes ascii_lower untyped_db "writer" alice
    = Raise (HTTPException 500
        "Failed to search graph nodes: Neo4jError: toLower expects a string").
Proof. split; [repeat constructor | vm_compute; reflexivity]. Qed.

(** A query that occurs in the second element of an occupation only finds
    nothing there: [Ada] is a mathematician first and a writer second, and
    the search for [writer] returns [Grace] alone. *)
Example second_element_is_not_searched :
  matches ascii_lower "writer"
    (mk_node [("id", VStr "a"); ("name", VStr "Ada");
              ("occupation", VList ["Mathematician"; "Writer"])])
    = false
  ∧ matches ascii_lower "MATHEMATIC"
      (mk_node [("id", VStr "a"); ("name", VStr "Ada");
                ("occupation", VList ["Mathematician"; "Writer"])])
    = true
  ∧ ∃ n, search_graph_nodes ascii_lower search_db "writer" alice = Ok [n]
         ∧ n_id n = "g".
Proof.
  split; [|split]; [vm_compute; reflexivity..|].
  eexists. split; vm_compute; reflexivity.
Qed.

(** ** Authenticated and anonymous views of the network *)

Section NetworkFacts.
Variable uuid4_hex : nat → string.
Variable lower : string → string.






End NetworkFacts.


Lemma mapM_fmap {A B C} (f : B → Res C) (h : A → B) (l : list A) :
  mapM f (h <$> l) = mapM (f ∘ h) l.
Proof.
  induction l as [|x l IH]; [done|].
  rewrite fmap_cons, !mapM_cons, IH. reflexivity.
Qed.

Lemma skip_limit_nonneg {A} skip limit (rows : list A) :
  (0 ≤ skip)%Z → (0 ≤ limit)%Z →
  skip_limit skip limit rows
    = Ok (take (Z.to_nat limit) (drop (Z.to_nat skip) rows)).
Proof.
  intros Hs Hl. unfold skip_limit.
  destruct (Z.ltb_spec skip 0); [lia|]. destruct (Z.ltb_spec limit 0); [lia|].
  reflexivity.
Qed.

Lemma skip_limit_Ok {A} skip limit (rows page : list A) :
  skip_limit skip limit rows = Ok page →
  (0 ≤ skip)%Z ∧ (0 ≤ limit)%Z
  ∧ page = take (Z.to_nat limit) (drop (Z.to_nat skip) rows).
Proof.
  unfold skip_limit.
  destruct (Z.ltb_spec skip 0); [done|]. destruct (Z.ltb_spec limit 0); [done|].
  intros [= <-]. done.
Qed.



Lemma filter_length_le {A} (f : A → bool) (l : list A) :
  (length (List.filter f l) ≤ length l)%nat.
Proof. induction l as [|x l IH]; cbn; [lia|]. destruct (f x); cbn; lia. Qed.

Lemma match_edges_length db : (length (match_edges db) ≤ length (rels db))%nat.
Proof.
  unfold match_edges. induction (rels db) as [|x l IH]; cbn; [lia|].
  destruct (persons db !! rel_start x); cbn; [|lia].
  destruct (persons db !! rel_end x); cbn; lia.
Qed.


Lemma Forall_filter_In {A} (P : A → Prop) (f : A → bool) (l : list A) :
  Forall P l → Forall P (List.filter f l).
Proof.
  rewrite !Forall_forall. intros H x Hx. apply H.
  apply list_elem_of_In, filter_In in Hx as [Hx _]. by apply list_elem_of_In.
Qed.

Lemma except_500_Ok {A} prefix (m : Res A) a :
  except_500 prefix m = Ok a → m = Ok a.
Proof. by destruct m. Qed.





(** A synthesized identifier depends on the position of the row in the
    result: the person without an [id] is [node-0-...] for the anonymous
    caller and [node-1-...] for the authenticated one, so the two views
    share no node for it. *)
Example synthesized_ids_depend_on_position :
  ∃ ga gb,
    get_graph_network zero_uuid ascii_lower anon_id_db 0 100 0 100 None = Ok ga
    ∧ get_graph_network zero_uuid ascii_lower anon_id_db 0 100 0 100 (Some alice) = Ok gb
    ∧ n_id <$> nodes ga = ["node-0-00000000"]
    ∧ n_id <$> nodes gb = ["p"; "node-1-00000000"].
Proof.
  eexists _, _. split; [vm_compute; reflexivity|].
  split; [vm_compute; reflexivity|]. split; reflexivity.
Qed.

(** Nor is the authenticated view strictly larger when the store holds
    public records only. *)
Example authenticated_view_can_equal_anonymous :
  get_graph_network zero_uuid ascii_lower knows_db 0 100 0 100 None
    = get_graph_network zero_uuid ascii_lower knows_db 0 100 0 100 (Some alice).
Proof. vm_compute. reflexivity. Qed.

(** ** What the anonymous node query does guarantee *)

Lemma anon_node_where_public p :
  cy_holds (anon_node_where p) = true →
  props p !! "source_type" = None
  ∨ props p !! "source_type" = Some (VStr "system")
  ∨ props p !! "source_type" = Some (VStr "public").
Proof.
  unfold anon_node_where, st_in, st_null, source_type_of, cy_in, cy_is_null.
  destruct (props p !! "source_type") as [[s| | |]|]; try done; [|by left].
  case_bool_decide as Hs; [|done]. intros _.
  apply elem_of_cons in Hs as [->|Hs]; [by right; left|].
  apply list_elem_of_singleton in Hs as ->. by right; right.
Qed.

Lemma network_nodes_properties uuid4_hex lower i c rows ns c' :
  network_nodes uuid4_hex lower i c rows = Ok (ns, c') →
  Forall2 (λ p n, n_properties n = person_properties (props p)) rows ns.
Proof.
  revert i c ns. induction rows as [|p rows IH]; intros i c ns.
  - intros [= <- _]. constructor.
  - cbn [network_nodes]. unfold network_node, GraphNode_new, as_str.
    destruct (network_node_id uuid4_hex lower i c (props p)) as [[v c1]|]; [|done].
    cbn [mbind Res_bind]. destruct v; try done.
    destruct (props p !! "name") as [[]|]; try done; cbn [mbind Res_bind];
      (destruct (network_nodes uuid4_hex lower (S i) c1 rows) as [[ns' c2]|] eqn:E;
       [|done]); intros [= <- ->]; (constructor; [done|]); by eapply IH.
Qed.

(** Every node an anonymous [GET /graph/network] returns is public: its
    [source_type] is [system], [public] or not set. *)
Lemma anonymous_nodes_are_public uuid4_hex lower db sn ln se le g n :
  get_graph_network uuid4_hex lower db sn ln se le None = Ok g →
  n ∈ nodes g →
  dict_get (n_properties n) "source_type" = Some None
  ∨ dict_get (n_properties n) "source_type" = Some (Some (VStr "system"))
  ∨ dict_get (n_properties n) "source_type" = Some (Some (VStr "public")).
Proof.
  intros Hg Hn. apply except_500_Ok in Hg. unfold execute_query in Hg.
  destruct (up db); [|done].
  unfold nodes_query_anon in Hg. unfold skip_limit in Hg at 1.
  destruct ((sn <? 0)%Z || (ln <? 0)%Z)%bool; [done|].
  cbn [mbind Res_bind] in Hg.
  destruct (network_nodes uuid4_hex lower 0 0 _) as [[ns c]|] eqn:En; [|done].
  cbn [mbind Res_bind] in Hg.
  destruct (edges_query_anon se le db) as [erows|]; [|done].
  cbn [mbind Res_bind] in Hg.
  destruct (network_edges uuid4_hex 0 c erows) as [[es c']|]; [|done].
  injection Hg as <-. cbn [nodes] in Hn.
  apply network_nodes_properties in En.
  apply list_elem_of_lookup in Hn as [i Hi].
  destruct (Forall2_lookup_r _ _ _ _ _ En Hi) as (p & Hp & Hprops).
  rewrite Hprops.
  assert (Hpub : cy_holds (anon_node_where p) = true).
  { apply list_elem_of_lookup_2, subseteq_take, subseteq_drop in Hp.
    apply list_elem_of_In, filter_In in Hp as [_ Hp]. done. }
  apply anon_node_where_public in Hpub. cbn.
  destruct Hpub as [->| [->| ->]]; auto.
Qed.

(** * Further properties of the handlers *)

(** ** Reading persons *)

Lemma as_str_raise v e : as_str v = Raise e → e = Exception "ValidationError".
Proof. destruct v as [[]|]; cbn; congruence. Qed.

Lemma as_opt_int_raise v e : as_opt_int v = Raise e → e = Exception "ValidationError".
Proof. destruct v as [[]|]; cbn; congruence. Qed.

Lemma as_opt_str_raise v e : as_opt_str v = Raise e → e = Exception "ValidationError".
Proof. destruct v as [[]|]; cbn; congruence. Qed.

Lemma as_opt_list_raise v e : as_opt_list v = Raise e → e = Exception "ValidationError".
Proof. destruct v as [[]|]; cbn; congruence. Qed.

Lemma as_bool_raise v e : as_bool v = Raise e → e = Exception "ValidationError".
Proof. destruct v as [[]|]; cbn; congruence. Qed.

Lemma bind_raise {A B} (m : Res A) (k : A → Res B) e :
  (x ← m; k x) = Raise e →
  m = Raise e ∨ ∃ a, m = Ok a ∧ k a = Raise e.
Proof. destruct m as [a|e']; cbn; [eauto|]. intros [= ->]. by left. Qed.

Ltac raise_chain H :=
  repeat (apply bind_raise in H as [H | (? & _ & H)];
          [first [ apply as_str_raise in H | apply as_opt_int_raise in H
                 | apply as_opt_str_raise in H | apply as_opt_list_raise in H
                 | apply as_bool_raise in H ]; by subst |]).

(** Building the response from a stored node raises a validation or value
    error only, never an [HTTPException]. *)
Lemma person_response_of_not_http fromisoformat p e :
  person_response_of fromisoformat p = Raise e → is_http e = false.
Proof.
  unfold person_response_of. intros H.
  apply bind_raise in H as [H | (created_at_arg & _ & H)].
  { destruct (truthy (p !! "created_at")); [|done].
    destruct (p !! "created_at") as [[s| | |]|]; try by injection H as <-.
    destruct (fromisoformat s); [done|]. by injection H as <-. }
  raise_chain H.
  apply bind_raise in H as [H | (? & _ & H)]; [|done].
  destruct created_at_arg; [done|]. by injection H as <-.
Qed.

Lemma filter_nil_Forall {A} (f : A → bool) (l : list A) :
  List.filter f l = [] ↔ Forall (λ x, f x = false) l.
Proof.
  split.
  - intros H. apply Forall_forall. intros x Hx. by eapply filter_nil_false.
  - induction 1 as [|x l Hx _ IH]; [done|]. cbn. by rewrite Hx.
Qed.

Lemma except_keep_http_404 {A} prefix (m : Res A) d :
  (∀ e, m = Raise e → is_http e = false) →
  except_500_keep_http prefix m ≠ Raise (HTTPException 404 d).
Proof.
  intros Hm. destruct m as [a|e]; [done|].
  specialize (Hm e eq_refl). destruct e; cbn; [done|..]; intros [= H _];
    discriminate.
Qed.

Section ReadFacts.
Variable fromisoformat : string → option string.

(** X1: on a reachable store [GET /persons/{id}] answers 404 exactly when
    no person has that id; a stored person that cannot be shaped gives a
    500, never a 404. *)
Theorem get_person_not_found_iff db person_id (u : User) :
  up db = true →
  get_person fromisoformat db person_id u
    = Raise (HTTPException 404 "Person not found")
  ↔ Forall (λ p, has_id person_id p = false) (persons db).
Proof.
  intros Hup. unfold get_person, execute_query, check_query. rewrite Hup.
  cbn [mbind Res_bind]. rewrite <- filter_nil_Forall.
  destruct (List.filter (has_id person_id) (persons db)) as [|p l]; [done|].
  split; [|done]. intros H. exfalso. revert H.
  apply except_keep_http_404. apply person_response_of_not_http.
Qed.

(** X2: on a reachable store [PUT /persons/{id}] answers 404 exactly when
    no person has that id, whatever the body holds; and whenever it answers
    404 the store is left as it was: the second "not found" test of the
    handler, after the write, never fires. *)
Theorem update_person_not_found_iff db person_id pd (u : User) :
  up db = true →
  ((update_person fromisoformat db person_id pd u).1
     = Raise (HTTPException 404 "Person not found")
   ↔ Forall (λ p, has_id person_id p = false) (persons db))
  ∧ ((update_person fromisoformat db person_id pd u).1
       = Raise (HTTPException 404 "Person not found") →
     (update_person fromisoformat db person_id pd u).2 = db).
Proof.
  intros Hup. unfold update_person, execute_query, execute_write, check_query.
  rewrite Hup. rewrite <- filter_nil_Forall.
  destruct (List.filter (has_id person_id) (persons db)) as [|p l] eqn:Hf.
  - cbn. tauto.
  - match goal with |- (?a = ?b ↔ _) ∧ _ => assert (Hne : a ≠ b) end.
    { destruct (update_fields pd) as [|f fs]; [done|].
      unfold update_query. rewrite Hf. cbn [fst fmap list_fmap].
      apply except_keep_http_404. intros e.
      cbn [mbind Res_bind]. apply person_response_of_not_http. }
    split; [split; [by intros ?|done] | by intros ?].
Qed.

End ReadFacts.

Lemma get_person_not_found_iff_witness :
  get_person (λ s, Some s) leak_db "zzz" alice
    = Raise (HTTPException 404 "Person not found").
Proof.
  apply (get_person_not_found_iff (λ s, Some s) leak_db "zzz" alice eq_refl).
  repeat constructor.
Defined.

Lemma update_person_not_found_iff_witness :
  (update_person (λ s, Some s) leak_db "zzz" rename_ada alice).1
    = Raise (HTTPException 404 "Person not found")
  ∧ (update_person (λ s, Some s) leak_db "zzz" rename_ada alice).2 = leak_db.
Proof.
  destruct (update_person_not_found_iff (λ s, Some s) leak_db "zzz" rename_ada
              alice eq_refl) as [Hiff Hstore].
  assert (H404 := proj2 Hiff ltac:(repeat constructor)).
  split; [exact H404 | exact (Hstore H404)].
Defined.

(** ** What an update cannot touch *)

(** A property that is not among the fifteen fields of the body survives
    the [SET]. *)
Lemma set_props_other pd (m : gmap string Value) k :
  dict_get (update_table pd) k = None →
  set_props (update_fields pd) m !! k = m !! k.
Proof.
  intros H. unfold update_fields.
  rewrite set_props_lookup by apply update_table_NoDup. by rewrite H.
Qed.

Lemma has_id_set_props pd person_id (p : Node) :
  has_id person_id {| props := set_props (update_fields pd) (props p) |}
    = has_id person_id p.
Proof. unfold has_id. cbn [props]. by rewrite set_props_other. Qed.

Lemma filter_updated pd person_id (l : list Node) :
  List.filter (has_id person_id)
    ((λ p, if has_id person_id p
           then {| props := set_props (update_fields pd) (props p) |}
           else p) <$> l)
  = (λ p, {| props := set_props (update_fields pd) (props p) |})
      <$> List.filter (has_id person_id) l.
Proof.
  induction l as [|p l IH]; [done|]. cbn [fmap list_fmap List.filter].
  destruct (has_id person_id p) eqn:E.
  - rewrite has_id_set_props, E. cbn [fmap list_fmap]. by f_equal.
  - by rewrite E.
Qed.

Lemma set_props_twice pd (m : gmap string Value) :
  set_props (update_fields pd) (set_props (update_fields pd) m)
    = set_props (update_fields pd) m.
Proof.
  apply map_eq. intros k. unfold update_fields.
  rewrite !set_props_lookup by apply update_table_NoDup.
  by destruct (dict_get (update_table pd) k) as [[v|]|].
Qed.

Section UpdateMore.
Variable fromisoformat : string → option string.

Lemma update_person_store_down db person_id pd (u : User) :
  up db = false → (update_person fromisoformat db person_id pd u).2 = db.
Proof.
  intros Hup. unfold update_person, execute_query. by rewrite Hup.
Qed.

(** X3: when [PUT /persons/{id}] answers with a person, a following
    [GET /persons/{id}] on the store it left answers with the same
    person. *)
Theorem update_then_get_person db person_id pd (u u' : User) resp db' :
  update_person fromisoformat db person_id pd u = (Ok resp, db') →
  get_person fromisoformat db' person_id u' = Ok resp.
Proof.
  intros H. destruct (up db) eqn:Hup.
  2: { unfold update_person, execute_query in H. by rewrite Hup in H. }
  assert (Hdb : db' = (update_person fromisoformat db person_id pd u).2)
    by (by rewrite H).
  rewrite update_person_store in Hdb by done.
  unfold update_person, execute_query, execute_write, check_query in H.
  rewrite Hup in H.
  destruct (List.filter (has_id person_id) (persons db)) as [|p l] eqn:Hf;
    [done|].
  destruct (update_fields pd) as [|f fs] eqn:Hu; [done|].
  unfold update_query in H. rewrite Hf in H.
  cbn [fmap list_fmap mbind Res_bind] in H. injection H as H _.
  change (set_props fs (<[f.1:=f.2]> (props p)))
    with (set_props (f :: fs) (props p)) in H.
  rewrite <- Hu in H, Hdb.
  unfold get_person, execute_query, check_query. subst db'. cbn [up persons].
  rewrite Hup. cbn [mbind Res_bind]. rewrite filter_updated, Hf.
  cbn [fmap list_fmap props].
  destruct (person_response_of fromisoformat _) as [r|e]; [exact H|].
  by destruct e.
Qed.

(** X4: sending the same body twice leaves the store of the first
    request. *)
Theorem update_person_idempotent db person_id pd (u u' : User) :
  up db = true →
  (update_person fromisoformat
     (update_person fromisoformat db person_id pd u).2 person_id pd u').2
    = (update_person fromisoformat db person_id pd u).2.
Proof.
  intros Hup. rewrite (update_person_store _ db) by done.
  rewrite update_person_store by done. cbn [up persons rels]. f_equal.
  rewrite <- list_fmap_compose. apply list_fmap_ext. intros i p _.
  unfold compose. destruct (has_id person_id p) eqn:E.
  - rewrite has_id_set_props, E. cbn [props]. by rewrite set_props_twice.
  - by rewrite E.
Qed.

(** X5: no update changes the [id], [source_type], [created_by] or
    [created_at] of a person; a person is visible to anonymous callers
    after the request exactly if it was before. *)
Theorem update_person_keeps_visibility db person_id pd (u : User) :
  Forall2 (λ p p',
      props p' !! "id" = props p !! "id"
      ∧ props p' !! "source_type" = props p !! "source_type"
      ∧ props p' !! "created_by" = props p !! "created_by"
      ∧ props p' !! "created_at" = props p !! "created_at"
      ∧ anon_node_where p' = anon_node_where p)
    (persons db) (persons (update_person fromisoformat db person_id pd u).2).
Proof.
  destruct (up db) eqn:Hup.
  - rewrite update_person_store by done. cbn [persons].
    apply Forall2_fmap_r, Forall_Forall2_diag, Forall_forall. intros p _.
    unfold compose. destruct (has_id person_id p); [|done].
    unfold anon_node_where, st_in, st_null, source_type_of. cbn [props].
    by rewrite !set_props_other.
  - rewrite update_person_store_down by done.
    apply Forall_Forall2_diag, Forall_forall. done.
Qed.

End UpdateMore.

Lemma update_then_get_person_witness :
  ∃ resp db',
    update_person (λ s, Some s) search_dated_db "a" rename_ada alice = (Ok resp, db')
    ∧ get_person (λ s, Some s) db' "a" alice = Ok resp
    ∧ PersonResponse.name resp = "Ada Lovelace".
Proof.
  destruct (update_person (λ s, Some s) search_dated_db "a" rename_ada alice)
    as [[resp|e] db'] eqn:E; [|by vm_compute in E].
  exists resp, db'. split; [reflexivity|]. split.
  - apply (update_then_get_person (λ s, Some s) search_dated_db "a" rename_ada
             alice alice resp db' E).
  - vm_compute in E. by injection E as <- _.
Defined.

Lemma update_person_idempotent_witness :
  (update_person (λ s, Some s)
     (update_person (λ s, Some s) leak_db "a" rename_ada alice).2 "a"
     rename_ada alice).2
    = (update_person (λ s, Some s) leak_db "a" rename_ada alice).2.
Proof.
  apply (update_person_idempotent (λ s, Some s) leak_db "a" rename_ada alice
           alice eq_refl).
Defined.

(** ** Routing of the persons router *)

(** X6: [GET /persons/me] is served by [get_person] with the id ["me"]:
    the route [/{person_id}] is registered before [/me], so no request is
    ever dispatched to [get_my_person]. *)
Theorem get_my_person_is_shadowed :
  persons_router GET "/me" = Some (Ep_get_person "me")
  ∧ ∀ method path, persons_router method path ≠ Some Ep_get_my_person.
Proof.
  split; [reflexivity|]. intros method path. unfold persons_router.
  destruct (path_segments path) as [segs|]; [|done]. cbn [mbind option_bind].
  unfold persons_routes.
  destruct segs as [|s [|s2 rest]]; cbn [dispatch match_segs]; [done| |].
  - destruct (String.eqb_spec "" s) as [<-|N1].
    { cbn. repeat case_bool_decide; done. }
    destruct (String.eqb_spec s "") as [->|N2]; [done|].
    destruct (String.eqb_spec "me" s) as [<-|N3];
      cbn [fmap option_fmap option_map match_segs];
      repeat case_bool_decide; done.
  - destruct (String.eqb "" s), (String.eqb s ""), (String.eqb "me" s);
      cbn [fmap option_fmap option_map match_segs]; done.
Qed.

(** ** Creating a person *)

(** The property map [CREATE] stores for parameters without repeated
    names: each parameter that is not [None], under its name. *)
Lemma list_to_map_non_null (t : list (string * option Value)) k :
  NoDup t.*1 →
  (list_to_map (non_null t) : gmap string Value) !! k
    = default None (dict_get t k).
Proof.
  induction t as [|[k' o] t IH]; intros Hnd; [done|].
  apply NoDup_cons in Hnd as [Hk' Hnd]. cbn [dict_get].
  destruct o as [v|].
  - change (non_null ((k', Some v) :: t)) with ((k', v) :: non_null t).
    cbn [list_to_map foldr]. 
    destruct (String.eqb_spec k' k) as [->|Hne].
    + by rewrite lookup_insert_eq.
    + rewrite lookup_insert_ne by done. by apply IH.
  - change (non_null ((k', None) :: t)) with (non_null t).
    rewrite IH by done.
    destruct (String.eqb_spec k' k) as [->|Hne]; [|done].
    by rewrite (dict_get_None t k).
Qed.

Lemma as_opt_int_fmap o : as_opt_int (VInt <$> o) = Ok o.
Proof. by destruct o. Qed.

Lemma as_opt_str_fmap o : as_opt_str (VStr <$> o) = Ok o.
Proof. by destruct o. Qed.

Lemma as_opt_list_fmap o : as_opt_list (VList <$> o) = Ok o.
Proof. by destruct o. Qed.

Section CreateFacts.
Variable uuid4_hex : nat → string.
Variable now_iso : string.
Variable now : string.
Variable fromisoformat : string → option string.

Lemma create_person_params_NoDup pid pd (cu : User) :
  NoDup (create_person_params now_iso pid pd cu).*1.
Proof. cbn. compute_done. Qed.

Lemma created_props_lookup pid pd (cu : User) k :
  (list_to_map (non_null (create_person_params now_iso pid pd cu))
     : gmap string Value) !! k
    = default None (dict_get (create_person_params now_iso pid pd cu) k).
Proof. apply list_to_map_non_null, create_person_params_NoDup. Qed.

(** The node [create_person] stores is shaped back into the response it
    returned, with the creation time read from the store. *)
Lemma person_response_of_created pid pd (cu : User) d :
  now_iso ≠ "" →
  fromisoformat now_iso = Some d →
  person_response_of fromisoformat
    (list_to_map (non_null (create_person_params now_iso pid pd cu)))
    = Ok (with_created_at d (created_person now pid pd cu)).
Proof.
  intros Hne Hiso. unfold person_response_of, get_default.
  rewrite !created_props_lookup.
  cbn [create_person_params dict_get default from_option Datatypes.id
       String.eqb Ascii.eqb Bool.eqb].
  rewrite !as_opt_int_fmap, !as_opt_str_fmap, !as_opt_list_fmap.
  cbn [truthy]. destruct (String.eqb_spec now_iso "") as [|_]; [done|].
  cbn [negb]. rewrite Hiso. reflexivity.
Qed.

(** X7: a person just created is what [GET /persons/{id}] returns for the
    new id, with the creation time parsed from the stored text, provided no
    stored person already has that id. *)
Theorem create_then_get_person sql neo pd (cu u' : User) d :
  up neo = true →
  now_iso ≠ "" →
  fromisoformat now_iso = Some d →
  Forall (λ p, has_id (str_uuid uuid4_hex 0) p = false) (persons neo) →
  ∃ resp sql' neo',
    create_person uuid4_hex now_iso now sql neo pd cu = (Ok resp, sql', neo')
    ∧ get_person fromisoformat neo' (PersonResponse.id resp) u'
      = Ok (with_created_at d resp).
Proof.
  intros Hup Hne Hiso Hfresh. unfold create_person, execute_write.
  rewrite Hup. cbn [create_query].
  eexists _, _, _. split; [reflexivity|].
  cbn [PersonResponse.id created_person].
  unfold get_person, execute_query, check_query. cbn [up persons].
  rewrite Hup. cbn [mbind Res_bind].
  rewrite List.filter_app. apply filter_nil_Forall in Hfresh. rewrite Hfresh.
  cbn [List.filter app].
  assert (Hid : has_id (str_uuid uuid4_hex 0)
                  {| props := list_to_map (non_null
                       (create_person_params now_iso (str_uuid uuid4_hex 0) pd cu)) |}
                = true).
  { unfold has_id. cbn [props]. rewrite created_props_lookup.
    apply bool_decide_eq_true. reflexivity. }
  rewrite Hid. cbn [props].
  rewrite (person_response_of_created _ _ _ d) by done. reflexivity.
Qed.

(** X8: the caller chooses the visibility of a person it creates: the new
    node passes the anonymous filter exactly when the request gives it the
    [source_type] [system] or [public]. *)
Theorem created_person_visibility sql neo pd (cu : User) :
  up neo = true →
  ∃ resp sql' p,
    create_person uuid4_hex now_iso now sql neo pd cu
      = (Ok resp, sql',
         {| up := true; persons := (persons neo ++ [p])%list; rels := rels neo |})
    ∧ props p !! "source_type" = Some (VStr (PersonCreate.source_type pd))
    ∧ props p !! "created_by" = Some (VStr (email cu))
    ∧ cy_holds (anon_node_where p)
      = bool_decide (PersonCreate.source_type pd ∈ ["system"; "public"]).
Proof.
  intros Hup. unfold create_person, execute_write. rewrite Hup.
  cbn [create_query]. rewrite Hup. eexists _, _, _. split; [reflexivity|].
  unfold anon_node_where, st_in, st_null, source_type_of. cbn [props].
  rewrite !created_props_lookup. cbn.
  repeat split. by case_bool_decide.
Qed.

(** When the graph store cannot be written, [POST /persons/] answers
    500 and nothing is linked: both stores are as they were. *)
Theorem create_person_store_down sql neo pd (cu : User) :
  up neo = false →
  create_person uuid4_hex now_iso now sql neo pd cu
    = (Raise (HTTPException 500
         "Failed to create person node: ServiceUnavailable"), sql, neo).
Proof. intros Hup. unfold create_person, execute_write. by rewrite Hup. Qed.

End CreateFacts.

Lemma create_then_get_person_witness :
  ∃ resp sql' neo',
    create_person zero_uuid "2024-01-01T00:00:00" "2024-01-01T00:00:01"
      users_db leak_db ada_create alice
      = (Ok resp, sql', neo')
    ∧ get_person (λ s, Some s) neo' (PersonResponse.id resp) bob_inactive
      = Ok (with_created_at "2024-01-01T00:00:00" resp).
Proof.
  apply (create_then_get_person zero_uuid "2024-01-01T00:00:00"
           "2024-01-01T00:00:01" (λ s, Some s)
           users_db leak_db ada_create alice bob_inactive "2024-01-01T00:00:00");
    [reflexivity | discriminate | reflexivity | repeat constructor].
Defined.

Lemma created_person_visibility_witness :
  ∃ resp sql' p,
    create_person zero_uuid "2024-01-01T00:00:00" "2024-01-01T00:00:01"
      users_db leak_db ada_create alice
      = (Ok resp, sql',
         {| up := true; persons := (persons leak_db ++ [p])%list;
            rels := rels leak_db |})
    ∧ props p !! "source_type" = Some (VStr "user_created")
    ∧ props p !! "created_by" = Some (VStr "alice@example.org")
    ∧ cy_holds (anon_node_where p) = false.
Proof.
  apply (created_person_visibility zero_uuid "2024-01-01T00:00:00"
           "2024-01-01T00:00:01"
           users_db leak_db ada_create alice eq_refl).
Defined.

Lemma create_person_store_down_witness :
  create_person zero_uuid "2024-01-01T00:00:00" "2024-01-01T00:00:01"
      users_db down_db ada_create alice
    = (Raise (HTTPException 500
         "Failed to create person node: ServiceUnavailable"), users_db, down_db).
Proof.
  apply (create_person_store_down zero_uuid "2024-01-01T00:00:00"
           "2024-01-01T00:00:01"
           users_db down_db ada_create alice eq_refl).
Defined.

(** ** Registration and login *)

Lemma get_user_by_email_None (sql : SqlDb) e :
  get_user_by_email sql e = Ok None
  ↔ Forall (λ u, email u ≠ e) sql.
Proof.
  unfold get_user_by_email.
  assert (List.filter (λ u, String.eqb (email u) e) sql = []
          ↔ Forall (λ u, email u ≠ e) sql) as <-.
  { rewrite filter_nil_Forall. apply Forall_iff. intros u.
    by rewrite String.eqb_neq. }
  destruct (List.filter _ sql) as [|u [|u' l]]; split; done.
Qed.

(** A user appended under an e-mail nobody has is found under it, and
    the lookups of all other e-mails are as before. *)
Lemma get_user_by_email_app (sql : SqlDb) (user : User) :
  Forall (λ u, email u ≠ email user) sql →
  get_user_by_email (sql ++ [user])%list (email user) = Ok (Some user)
  ∧ ∀ e, e ≠ email user →
         get_user_by_email (sql ++ [user])%list e = get_user_by_email sql e.
Proof.
  intros Hfree. unfold get_user_by_email. split.
  - rewrite List.filter_app.
    assert (List.filter (λ u, String.eqb (email u) (email user)) sql = []) as ->.
    { apply filter_nil_Forall. eapply Forall_impl; [exact Hfree|].
      intros u. by rewrite String.eqb_neq. }
    cbn. by rewrite String.eqb_refl.
  - intros e He. rewrite List.filter_app. cbn.
    destruct (String.eqb_spec (email user) e); [congruence|].
    by rewrite app_nil_r.
Qed.

Section RegisterFacts.
Variable uuid4_hex : nat → string.
Variable now_iso : string.
Variable get_password_hash : string → string.

(** What [create_user] returns and leaves when the e-mail is free. *)
Lemma create_user_free sql neo uc :
  get_user_by_email sql (UserCreate.email uc) = Ok None →
  ∃ user neo',
    create_user uuid4_hex now_iso get_password_hash sql neo uc
      = (Ok user, (sql ++ [user])%list, neo')
    ∧ user_id user = next_id sql
    ∧ email user = UserCreate.email uc
    ∧ hashed_password user = get_password_hash (UserCreate.password uc)
    ∧ is_active user = true.
Proof.
  intros Hfree. unfold create_user. rewrite Hfree.
  destruct (execute_write neo _) as [result neo'].
  destruct (result ≫= _) as [[]|e]; rewrite sql_commit_last by done;
    eexists _, _; (split; [reflexivity|]); done.
Qed.

(** X9: registering an e-mail that is taken fails with 400 and changes
    neither store. *)
Theorem register_duplicate_email sql neo uc (u : User) :
  NoDup (email <$> sql) →
  u ∈ sql →
  email u = UserCreate.email uc →
  register uuid4_hex now_iso get_password_hash sql neo uc
    = (Raise (HTTPException 400 "Email already registered"), sql, neo).
Proof.
  intros Hnd Hin He. unfold register, create_user.
  assert (get_user_by_email sql (UserCreate.email uc) = Ok (Some u)) as ->;
    [|done].
  unfold get_user_by_email. rewrite <- He. clear He neo uc.
  induction sql as [|x sql IH]; [by apply elem_of_nil in Hin|].
  rewrite fmap_cons in Hnd. apply NoDup_cons in Hnd as [Hx Hnd].
  apply elem_of_cons in Hin as [<-|Hin]; cbn [List.filter].
  - rewrite String.eqb_refl.
    assert (List.filter (λ u0, String.eqb (email u0) (email u)) sql = []) as ->;
      [|done].
    apply filter_nil_Forall, Forall_forall. intros y Hy.
    apply String.eqb_neq. intros Heq. apply Hx. rewrite <- Heq.
    by apply list_elem_of_fmap_2.
  - destruct (String.eqb_spec (email x) (email u)) as [Heq|_]; [|by apply IH].
    exfalso. apply Hx. rewrite Heq. by apply list_elem_of_fmap_2.
Qed.

(** X10: registration keeps the e-mails of the user table distinct; after
    a successful call the returned user is the one found under the new
    e-mail, and every other e-mail resolves as before. *)
Theorem create_user_keeps_emails_unique sql neo uc :
  NoDup (email <$> sql) →
  NoDup (email <$> (create_user uuid4_hex now_iso get_password_hash sql neo uc).1.2)
  ∧ ∀ user,
      (create_user uuid4_hex now_iso get_password_hash sql neo uc).1.1 = Ok user →
      get_user_by_email
        (create_user uuid4_hex now_iso get_password_hash sql neo uc).1.2
        (UserCreate.email uc) = Ok (Some user)
      ∧ ∀ e, e ≠ UserCreate.email uc →
          get_user_by_email
            (create_user uuid4_hex now_iso get_password_hash sql neo uc).1.2 e
          = get_user_by_email sql e.
Proof.
  intros Hnd.
  destruct (get_user_by_email sql (UserCreate.email uc)) as [[u|]|e] eqn:Hg.
  - unfold create_user. rewrite Hg. cbn. split; [done|]. done.
  - destruct (create_user_free sql neo uc Hg)
      as (user & neo' & -> & _ & Hemail & _).
    cbn [fst snd]. apply get_user_by_email_None in Hg.
    rewrite <- Hemail in Hg. split.
    + rewrite fmap_app. apply NoDup_app. split; [done|]. split.
      * intros e He Hin. apply list_elem_of_singleton in Hin as ->.
        apply list_elem_of_fmap in He as (y & Hy & Hin).
        rewrite Forall_forall in Hg. by apply (Hg y Hin).
      * apply NoDup_singleton.
    + intros user' [= <-]. rewrite <- Hemail.
      by apply get_user_by_email_app.
  - unfold create_user. rewrite Hg. cbn. split; [done|]. done.
Qed.

End RegisterFacts.

Lemma register_duplicate_email_witness :
  register zero_uuid "2024-01-01T00:00:00" id_hash users_db leak_db
      {| UserCreate.email := "alice@example.org";
         UserCreate.full_name := None; UserCreate.password := "x" |}
    = (Raise (HTTPException 400 "Email already registered"), users_db, leak_db).
Proof.
  apply (register_duplicate_email zero_uuid "2024-01-01T00:00:00" id_hash
           users_db leak_db _ alice).
  - cbn. compute_done.
  - apply list_elem_of_here.
  - reflexivity.
Defined.

Lemma create_user_keeps_emails_unique_witness :
  NoDup (email <$> (create_user zero_uuid "2024-01-01T00:00:00" id_hash
                      users_db leak_db carol_create).1.2)
  ∧ length (create_user zero_uuid "2024-01-01T00:00:00" id_hash
              users_db leak_db carol_create).1.2 = 3%nat.
Proof.
  split; [|reflexivity].
  apply (create_user_keeps_emails_unique zero_uuid "2024-01-01T00:00:00" id_hash
           users_db leak_db carol_create).
  cbn. compute_done.
Defined.

(** With distinct e-mails the lookup never raises: it finds the one user
    with the e-mail, or nobody. *)
Lemma get_user_by_email_unique (sql : SqlDb) e :
  NoDup (email <$> sql) →
  (get_user_by_email sql e = Ok None ∧ Forall (λ u, email u ≠ e) sql)
  ∨ ∃ u, get_user_by_email sql e = Ok (Some u) ∧ u ∈ sql ∧ email u = e.
Proof.
  intros Hnd.
  destruct (get_user_by_email sql e) as [[u|]|x] eqn:Hg.
  - right. exists u. split; [done|]. unfold get_user_by_email in Hg.
    destruct (List.filter _ sql) as [|u0 [|u1 l]] eqn:Hf; simplify_eq.
    assert (Hin : In u (List.filter (λ u, String.eqb (email u) e) sql))
      by (rewrite Hf; by left).
    apply filter_In in Hin as [Hin He]. apply String.eqb_eq in He.
    by apply list_elem_of_In in Hin.
  - left. split; [done|]. by apply get_user_by_email_None.
  - exfalso. unfold get_user_by_email in Hg.
    destruct (List.filter _ sql) as [|u0 [|u1 l]] eqn:Hf; simplify_eq.
    revert u0 u1 l Hf.
    induction sql as [|y sql IH]; intros u0 u1 l Hf; [done|].
    rewrite fmap_cons in Hnd. apply NoDup_cons in Hnd as [Hy Hnd].
    cbn [List.filter] in Hf.
    destruct (String.eqb_spec (email y) e) as [He|_]; [|by eapply IH].
    injection Hf as -> Hf.
    assert (Hin : In u1 (List.filter (λ u, String.eqb (email u) e) sql))
      by (rewrite Hf; by left).
    apply filter_In in Hin as [Hin He']. apply String.eqb_eq in He'.
    apply Hy. rewrite He, <- He'. apply list_elem_of_fmap_2.
    by apply list_elem_of_In.
Qed.

Section LoginFacts.
Variable verify_password : string → string → bool.
Variable create_access_token : string → string.

(** X11: a token is issued only to an active user of the table whose
    stored hash verifies the password, and it is the token of that user's
    e-mail; over a table with distinct e-mails, an unknown e-mail and a
    wrong password are answered with the same 401. *)
Theorem login_sound db username password :
  (∀ token,
     login verify_password create_access_token db username password = Ok token →
     ∃ user, user ∈ db ∧ email user = username
             ∧ verify_password password (hashed_password user) = true
             ∧ is_active user = true
             ∧ token = {| access_token := create_access_token username;
                          token_type := "bearer" |})
  ∧ (NoDup (email <$> db) →
     Forall (λ u, email u ≠ username
                  ∨ verify_password password (hashed_password u) = false) db →
     login verify_password create_access_token db username password
       = Raise (HTTPException 401 "Incorrect email or password")).
Proof.
  unfold login, authenticate_user. split.
  - intros token H.
    destruct (get_user_by_email db username) as [[user|]|x] eqn:Hg; [|done..].
    cbn [mbind Res_bind] in H.
    unfold get_user_by_email in Hg.
    destruct (List.filter _ db) as [|u0 [|u1 l]] eqn:Hf; simplify_eq.
    assert (Hin : In user (List.filter (λ u, String.eqb (email u) username) db))
      by (rewrite Hf; by left).
    apply filter_In in Hin as [Hin He]. apply String.eqb_eq in He.
    apply list_elem_of_In in Hin.
    destruct (verify_password password (hashed_password user)) eqn:Hv;
      cbn [negb mbind Res_bind] in H; [|done].
    destruct (is_active user) eqn:Ha; cbn [negb] in H; [|done].
    injection H as <-. exists user. by rewrite He.
  - intros Hnd Hall.
    destruct (get_user_by_email_unique db username Hnd)
      as [[-> _]|(u & -> & Hin & He)]; [done|].
    cbn [mbind Res_bind]. rewrite Forall_forall in Hall.
    destruct (Hall u Hin) as [?|Hv]; [done|]. by rewrite Hv.
Qed.

End LoginFacts.

Lemma login_sound_witness :
  login demo_verify demo_token users_db "alice@example.org" "wrong"
    = Raise (HTTPException 401 "Incorrect email or password")
  ∧ login demo_verify demo_token users_db "nobody@example.org" "wrong"
    = Raise (HTTPException 401 "Incorrect email or password").
Proof.
  split.
  - apply (login_sound demo_verify demo_token users_db "alice@example.org" "wrong").
    + cbn. compute_done.
    + repeat constructor; by right.
  - apply (login_sound demo_verify demo_token users_db "nobody@example.org" "wrong").
    + cbn. compute_done.
    + repeat constructor; by right.
Defined.

Lemma substring_all (s : string) : substring 0 (String.length s) s = s.
Proof. induction s as [|c s IH]; [done|]. cbn. by rewrite IH. Qed.

Lemma demo_token_roundtrip (subject : string) :
  demo_token_decode (demo_token subject) = Some (Some subject).
Proof.
  unfold demo_token_decode, demo_token.
  change ("tok:" ++ subject)
    with (String "t" (String "o" (String "k" (String ":" subject)))).
  cbn. by rewrite Nat.sub_0_r, substring_all.
Qed.

Lemma demo_verify_hash (password : string) :
  demo_verify password (id_hash password) = true.
Proof. apply String.eqb_refl. Qed.

Section SessionFacts.
Variable verify_password : string → string → bool.
Variable create_access_token : string → string.
Variable jwt_decode : string → option (option string).
Variable uuid4_hex : nat → string.
Variable now_iso : string.
Variable get_password_hash : string → string.

Hypothesis verify_hash :
  ∀ password, verify_password password (get_password_hash password) = true.
Hypothesis decode_token :
  ∀ subject, jwt_decode (create_access_token subject) = Some (Some subject).

(** X12: a user who registered can log in with the same e-mail and
    password, whether or not the graph write succeeded, and the token
    obtained resolves, on the strict and on the optional path, to the user
    that registration returned. *)
Theorem register_login_session sql neo uc user sql' neo' :
  register uuid4_hex now_iso get_password_hash sql neo uc = (Ok user, sql', neo') →
  ∃ token,
    login verify_password create_access_token sql'
      (UserCreate.email uc) (UserCreate.password uc) = Ok token
    ∧ depends_get_current_user jwt_decode
        {| authorization := Some ("Bearer " ++ access_token token) |} sql'
      = Ok user
    ∧ depends_get_current_user_or_none jwt_decode
        {| authorization := Some ("Bearer " ++ access_token token) |} sql'
      = Ok (Some user).
Proof.
  intros Hreg. unfold register in Hreg.
  destruct (get_user_by_email sql (UserCreate.email uc)) as [[u|]|e] eqn:Hg.
  - unfold create_user in Hreg. by rewrite Hg in Hreg.
  - destruct (create_user_free uuid4_hex now_iso get_password_hash sql neo uc Hg)
      as (user0 & neo0 & Hc & _ & Hemail & Hhash & Hactive).
    rewrite Hc in Hreg. injection Hreg as -> <- ->.
    apply get_user_by_email_None in Hg. rewrite <- Hemail in Hg.
    destruct (get_user_by_email_app sql user Hg) as [Hfind _].
    exists {| access_token := create_access_token (email user);
              token_type := "bearer" |}.
    split; [|split].
    + unfold login, authenticate_user. rewrite <- Hemail, Hfind.
      cbn [mbind Res_bind]. rewrite Hhash, verify_hash. cbn [negb mbind Res_bind].
      by rewrite Hactive.
    + unfold depends_get_current_user. cbn [access_token].
      change (oauth2_scheme _) with (@Ok string (create_access_token (email user))).
      cbn [mbind Res_bind]. unfold get_current_user, verify_token.
      rewrite decode_token, Hfind. cbn [mbind Res_bind]. by rewrite Hactive.
    + unfold depends_get_current_user_or_none. cbn [access_token].
      change (oauth2_scheme _) with (@Ok string (create_access_token (email user))).
      cbn [mbind Res_bind]. unfold get_current_user_or_none, verify_token.
      rewrite decode_token, Hfind. cbn [mbind Res_bind].
      by rewrite Hactive.
  - unfold create_user in Hreg. rewrite Hg in Hreg. by destruct e.
Qed.

End SessionFacts.

Lemma register_login_session_witness :
  ∃ user sql' neo' token,
    register zero_uuid "2024-01-01T00:00:00" id_hash users_db down_db carol_create
      = (Ok user, sql', neo')
    ∧ login demo_verify demo_token sql' "carol@example.org" "secret" = Ok token
    ∧ depends_get_current_user demo_token_decode
        {| authorization := Some ("Bearer " ++ access_token token) |} sql'
      = Ok user.
Proof.
  destruct (register zero_uuid "2024-01-01T00:00:00" id_hash users_db down_db
              carol_create) as [[[user|e] sql'] neo'] eqn:E;
    [|by vm_compute in E].
  destruct (register_login_session demo_verify demo_token demo_token_decode
              zero_uuid "2024-01-01T00:00:00" id_hash demo_verify_hash
              demo_token_roundtrip users_db down_db carol_create user sql' neo' E)
    as (token & Hlogin & Hstrict & _).
  exists user, sql', neo', token. split; [reflexivity|]. by split.
Defined.

Section LinkFacts.
Variable uuid4_hex : nat → string.
Variable now_iso : string.
Variable get_password_hash : string → string.

Lemma create_user_params_NoDup pid uc :
  NoDup (create_user_params now_iso pid uc).*1.
Proof. cbn. compute_done. Qed.

(** X13: when the e-mail is free and the graph store can be written,
    registration appends one person named after the user, created by the
    user's e-mail and tagged [user_created], so that the anonymous filter
    rejects it, and returns the user linked to that person's id. *)
Theorem registration_links_person sql neo uc :
  up neo = true →
  get_user_by_email sql (UserCreate.email uc) = Ok None →
  ∃ user p,
    create_user uuid4_hex now_iso get_password_hash sql neo uc
      = (Ok user, (sql ++ [user])%list,
         {| up := true; persons := (persons neo ++ [p])%list; rels := rels neo |})
    ∧ neo4j_person_id user = Some (str_uuid uuid4_hex 0)
    ∧ is_in_graph user = true
    ∧ props p !! "id" = Some (VStr (str_uuid uuid4_hex 0))
    ∧ props p !! "name" = Some (VStr (display_name uc))
    ∧ props p !! "created_by" = Some (VStr (UserCreate.email uc))
    ∧ props p !! "source_type" = Some (VStr "user_created")
    ∧ cy_holds (anon_node_where p) = false.
Proof.
  intros Hup Hfree. unfold create_user. rewrite Hfree.
  unfold execute_write. rewrite Hup. cbn [create_query mbind Res_bind].
  rewrite sql_commit_last by done. rewrite Hup.
  eexists _, _. split; [reflexivity|].
  unfold anon_node_where, st_in, st_null, source_type_of. cbn [props].
  rewrite !list_to_map_non_null by apply create_user_params_NoDup.
  repeat split.
Qed.

End LinkFacts.

Lemma registration_links_person_witness :
  ∃ user p,
    create_user zero_uuid "2024-01-01T00:00:00" id_hash users_db leak_db carol_create
      = (Ok user, (users_db ++ [user])%list,
         {| up := true; persons := (persons leak_db ++ [p])%list;
            rels := rels leak_db |})
    ∧ neo4j_person_id user = Some "00000000-0000-0000-0000-000000000000"
    ∧ props p !! "name" = Some (VStr "carol")
    ∧ cy_holds (anon_node_where p) = false.
Proof.
  destruct (registration_links_person zero_uuid "2024-01-01T00:00:00" id_hash
              users_db leak_db carol_create eq_refl eq_refl)
    as (user & p & Hc & Hpid & _ & _ & Hname & _ & _ & Hanon).
  exists user, p. split; [exact Hc|]. split; [exact Hpid|].
  split; [exact Hname|exact Hanon].
Defined.

(** ** The network handler never lacks an identifier *)

Section NetworkTotal.
Variable uuid4_hex : nat → string.
Variable lower : string → string.

Lemma network_node_total i c p :
  node_typed p = true →
  ∃ n c', network_node uuid4_hex lower i c p = Ok (n, c').
Proof.
  unfold node_typed, network_node, network_node_id, GraphNode_new.
  rewrite andb_true_iff. intros [Hid Hname].
  destruct (props p !! "id") as [[sid| | |]|]; try done;
    destruct (props p !! "name") as [[sn| | |]|]; try done;
    cbn; try (by eexists _, _).
  destruct (negb (String.eqb sn "")); by eexists _, _.
Qed.

Lemma network_nodes_total i c rows :
  forallb node_typed rows = true →
  ∃ ns c', network_nodes uuid4_hex lower i c rows = Ok (ns, c')
           ∧ length ns = length rows.
Proof.
  revert i c. induction rows as [|p rows IH]; intros i c H.
  - by eexists _, _.
  - cbn [forallb] in H. apply andb_true_iff in H as [Hp Hrows].
    destruct (network_node_total i c p Hp) as (n & c1 & Hn).
    destruct (IH (S i) c1 Hrows) as (ns & c2 & Hns & Hlen).
    exists (n :: ns), c2. cbn [network_nodes]. rewrite Hn.
    cbn [mbind Res_bind]. rewrite Hns. cbn. by rewrite Hlen.
Qed.

Lemma network_edge_total i c record :
  row_typed record = true →
  ∃ e c', network_edge uuid4_hex i c record = Ok (e, c').
Proof.
  unfold row_typed, rel_typed, network_edge, GraphEdge_new, get_default.
  rewrite !andb_true_iff. intros [[Hs Ht] [Hid Hty]].
  destruct (source_id record) as [[]|]; try done;
    destruct (target_id record) as [[]|]; try done;
    destruct (rel_props (r record) !! "id") as [[]|]; try done;
    destruct (rel_props (r record) !! "type") as [[]|]; try done;
    by eexists _, _.
Qed.

Lemma network_edges_total i c rows :
  forallb row_typed rows = true →
  ∃ es c', network_edges uuid4_hex i c rows = Ok (es, c')
           ∧ length es = length rows.
Proof.
  revert i c. induction rows as [|p rows IH]; intros i c H.
  - by eexists _, _.
  - cbn [forallb] in H. apply andb_true_iff in H as [Hp Hrows].
    destruct (network_edge_total i c p Hp) as (n & c1 & Hn).
    destruct (IH (S i) c1 Hrows) as (ns & c2 & Hns & Hlen).
    exists (n :: ns), c2. cbn [network_edges]. rewrite Hn.
    cbn [mbind Res_bind]. rewrite Hns. cbn. by rewrite Hlen.
Qed.

End NetworkTotal.

Lemma forallb_Forall {A} (f : A → bool) (l : list A) :
  forallb f l = true ↔ Forall (λ x, f x = true) l.
Proof.
  rewrite forallb_forall, Forall_forall.
  split; intros H x Hx; apply H; by apply list_elem_of_In.
Qed.

Lemma match_edges_typed db :
  forallb node_typed (persons db) = true →
  forallb rel_typed (rels db) = true →
  Forall (λ t, row_typed (edge_row t) = true) (match_edges db).
Proof.
  rewrite !forallb_Forall. intros Hp Hr.
  apply Forall_forall. intros [[a x] b] Ht.
  unfold match_edges in Ht. apply list_elem_of_omap in Ht as (x' & Hx' & Hsome).
  destruct (persons db !! rel_start x') as [a'|] eqn:Ea; [|done].
  destruct (persons db !! rel_end x') as [b'|] eqn:Eb; [|done].
  cbn in Hsome. simplify_eq.
  rewrite Forall_forall in Hp. rewrite Forall_forall in Hr.
  apply list_elem_of_lookup_2 in Ea, Eb.
  pose proof (Hp a Ea) as Ha. pose proof (Hp b Eb) as Hb. pose proof (Hr x Hx') as Hx.
  unfold node_typed in Ha, Hb. apply andb_true_iff in Ha as [Ha _].
  apply andb_true_iff in Hb as [Hb _].
  unfold row_typed, edge_row. cbn [source_id target_id r].
  by rewrite Ha, Hb, Hx.
Qed.

Lemma skip_limit_Forall {A} (P : A → Prop) skip limit (rows page : list A) :
  Forall P rows → skip_limit skip limit rows = Ok page → Forall P page.
Proof.
  intros H. unfold skip_limit.
  destruct ((skip <? 0)%Z || (limit <? 0)%Z)%bool; [done|].
  intros [= <-]. by apply Forall_take, Forall_drop.
Qed.

(** X14: over a reachable store whose persons and relationships have
    string ids, names and [type] properties where they have them at all,
    [GET /graph/network] answers a non-negative page for every caller, with
    one node for each person and one edge for each relationship of the
    page: a missing id, name or type never fails the request. *)
Theorem network_shapes_every_row uuid4_hex lower db sn ln se le (u : option User) :
  up db = true →
  (0 ≤ sn)%Z → (0 ≤ ln)%Z → (0 ≤ se)%Z → (0 ≤ le)%Z →
  forallb node_typed (persons db) = true →
  forallb rel_typed (rels db) = true →
  ∃ g nrows erows,
    get_graph_network uuid4_hex lower db sn ln se le u = Ok g
    ∧ (match u with None => nodes_query_anon | Some _ => nodes_query_all end)
        sn ln db = Ok nrows
    ∧ (match u with None => edges_query_anon | Some _ => edges_query_all end)
        se le db = Ok erows
    ∧ length (nodes g) = length nrows
    ∧ length (edges g) = length erows.
Proof.
  intros Hup Hsn Hln Hse Hle Hp Hr.
  pose proof (match_edges_typed db Hp Hr) as Hm.
  apply forallb_Forall in Hp.
  assert (∃ nrows, (match u with None => nodes_query_anon
                            | Some _ => nodes_query_all end) sn ln db = Ok nrows
                   ∧ Forall (λ p, node_typed p = true) nrows)
    as (nrows & Hn & Hnty).
  { destruct u; unfold nodes_query_anon, nodes_query_all;
      rewrite skip_limit_nonneg by done; eexists; (split; [reflexivity|]);
      apply Forall_take, Forall_drop; [done|]. by apply Forall_filter_In. }
  assert (∃ erows, (match u with None => edges_query_anon
                            | Some _ => edges_query_all end) se le db = Ok erows
                   ∧ Forall (λ x, row_typed x = true) erows)
    as (erows & He & Hety).
  { destruct u; unfold edges_query_anon, edges_query_all;
      rewrite skip_limit_nonneg by done; eexists; (split; [reflexivity|]);
      apply Forall_take, Forall_drop, Forall_fmap; [done|].
    by apply Forall_filter_In. }
  apply forallb_Forall in Hnty, Hety.
  destruct (network_nodes_total uuid4_hex lower 0 0 nrows Hnty) as (ns & c & Hns & Hnl).
  destruct (network_edges_total uuid4_hex 0 c erows Hety) as (es & c' & Hes & Hel).
  exists {| nodes := ns; edges := es |}, nrows, erows.
  split; [|by repeat split].
  unfold get_graph_network, execute_query. rewrite Hup.
  destruct u; rewrite Hn, He; cbn [mbind Res_bind]; rewrite Hns;
    cbn [mbind Res_bind]; by rewrite Hes.
Qed.

Lemma network_shapes_every_row_witness :
  ∃ g, get_graph_network zero_uuid ascii_lower noid_db 0 100 0 100 None = Ok g
       ∧ length (nodes g) = 1%nat.
Proof.
  destruct (network_shapes_every_row zero_uuid ascii_lower noid_db 0 100 0 100
              None
              eq_refl ltac:(lia) ltac:(lia) ltac:(lia) ltac:(lia) eq_refl eq_refl)
    as (g & nrows & erows & Hg & Hn & _ & Hlen & _).
  exists g. split; [exact Hg|]. rewrite Hlen.
  vm_compute in Hn. by injection Hn as <-.
Defined.

(** ** Pages *)

Lemma network_edges_length uuid4_hex i c rows es c' :
  network_edges uuid4_hex i c rows = Ok (es, c') → length es = length rows.
Proof.
  revert i c es. induction rows as [|p rows IH]; intros i c es.
  - by intros [= <- _].
  - cbn [network_edges].
    destruct (network_edge uuid4_hex i c p) as [[e c1]|]; [|done].
    cbn [mbind Res_bind].
    destruct (network_edges uuid4_hex (S i) c1 rows) as [[es' c2]|] eqn:E;
      [|done].
    intros [= <- ->]. cbn. f_equal. by eapply IH.
Qed.

Lemma page_length {A} (n k : nat) (l : list A) :
  (length (take n (drop k l)) ≤ n)%nat
  ∧ (length (take n (drop k l)) ≤ length l - k)%nat.
Proof. rewrite length_take, length_drop. lia. Qed.

(** X15: an answer of [GET /graph/network] is a page: the four paging
    parameters were non-negative (a negative one ends in a 500), and the
    response holds at most [limit_nodes] nodes and [limit_edges] edges, and
    no more than the store has beyond the skipped ones. *)
Theorem network_page_bounds uuid4_hex lower db sn ln se le (u : option User) g :
  get_graph_network uuid4_hex lower db sn ln se le u = Ok g →
  (0 ≤ sn)%Z ∧ (0 ≤ ln)%Z ∧ (0 ≤ se)%Z ∧ (0 ≤ le)%Z
  ∧ (length (nodes g) ≤ Z.to_nat ln)%nat
  ∧ (length (nodes g) ≤ length (persons db) - Z.to_nat sn)%nat
  ∧ (length (edges g) ≤ Z.to_nat le)%nat
  ∧ (length (edges g) ≤ length (rels db) - Z.to_nat se)%nat.
Proof.
  intros Hg. apply except_500_Ok in Hg. unfold execute_query in Hg.
  destruct (up db); [|destruct u; by cbn in Hg].
  assert (∃ (nl : list Node) (el : list EdgeRow) nrows erows,
            skip_limit sn ln nl = Ok nrows ∧ skip_limit se le el = Ok erows
            ∧ (length nl ≤ length (persons db))%nat
            ∧ (length el ≤ length (rels db))%nat
            ∧ length (nodes g) = length nrows
            ∧ length (edges g) = length erows)
    as (nl & el & nrows & erows & Hn & He & Hnl & Hel & Hgn & Hge).
  { pose proof (match_edges_length db) as Hml.
    destruct u as [user|].
    - exists (persons db), (edge_row <$> match_edges db).
      unfold nodes_query_all, edges_query_all in Hg.
      destruct (skip_limit sn ln (persons db)) as [nrows|] eqn:Hn; [|done].
      cbn [mbind Res_bind] in Hg.
      destruct (network_nodes uuid4_hex lower 0 0 nrows) as [[ns c]|] eqn:Hns; [|done].
      cbn [mbind Res_bind] in Hg.
      destruct (skip_limit se le _) as [erows|] eqn:He; [|done].
      cbn [mbind Res_bind] in Hg.
      destruct (network_edges uuid4_hex 0 c erows) as [[es c']|] eqn:Hes; [|done].
      injection Hg as <-. exists nrows, erows. rewrite length_fmap.
      apply network_nodes_properties, Forall2_length in Hns.
      apply network_edges_length in Hes. cbn [nodes edges].
      repeat split; try done; lia.
    - exists (List.filter (λ p, cy_holds (anon_node_where p)) (persons db)),
        (edge_row <$> List.filter
           (λ t, let '(a, x, b) := t in cy_holds (anon_edge_where a x b))
           (match_edges db)).
      unfold nodes_query_anon, edges_query_anon in Hg.
      destruct (skip_limit sn ln _) as [nrows|] eqn:Hn; [|done].
      cbn [mbind Res_bind] in Hg.
      destruct (network_nodes uuid4_hex lower 0 0 nrows) as [[ns c]|] eqn:Hns; [|done].
      cbn [mbind Res_bind] in Hg.
      destruct (skip_limit se le _) as [erows|] eqn:He; [|done].
      cbn [mbind Res_bind] in Hg.
      destruct (network_edges uuid4_hex 0 c erows) as [[es c']|] eqn:Hes; [|done].
      injection Hg as <-. exists nrows, erows. rewrite length_fmap.
      apply network_nodes_properties, Forall2_length in Hns.
      apply network_edges_length in Hes. cbn [nodes edges].
      pose proof (filter_length_le (λ p, cy_holds (anon_node_where p)) (persons db)).
      pose proof (filter_length_le
        (λ t, let '(a, x, b) := t in cy_holds (anon_edge_where a x b))
        (match_edges db)).
      repeat split; try done; lia. }
  apply skip_limit_Ok in Hn as (? & ? & ->). apply skip_limit_Ok in He as (? & ? & ->).
  rewrite Hgn, Hge.
  pose proof (page_length (Z.to_nat ln) (Z.to_nat sn) nl).
  pose proof (page_length (Z.to_nat le) (Z.to_nat se) el).
  repeat split; try done; lia.
Qed.

Lemma network_page_bounds_witness :
  ∃ g, get_graph_network zero_uuid ascii_lower leak_db 1 5 0 0 (Some alice) = Ok g
       ∧ (length (nodes g) ≤ 1)%nat ∧ (length (edges g) ≤ 0)%nat.
Proof.
  destruct (get_graph_network zero_uuid ascii_lower leak_db 1 5 0 0 (Some alice))
    as [g|] eqn:E; [|by vm_compute in E].
  destruct (network_page_bounds zero_uuid ascii_lower leak_db 1 5 0 0
              (Some alice) g E)
    as (_ & _ & _ & _ & _ & Hn & He & _).
  exists g. split; [reflexivity|]. split; [exact Hn|exact He].
Defined.

(** ** The label of a relationship never reaches the edge listings *)

Lemma match_edges_relabel f db :
  match_edges (relabel f db) = relabel_match f <$> match_edges db.
Proof.
  unfold match_edges, relabel. cbn [persons rels].
  induction (rels db) as [|x l IH]; [done|].
  rewrite fmap_cons. cbn [omap list_omap]. cbn [relabel_rel rel_start rel_end].
  destruct (persons db !! rel_start x) as [a|]; cbn [mbind option_bind]; [|done].
  destruct (persons db !! rel_end x) as [b|]; cbn [mbind option_bind]; [|done].
  rewrite fmap_cons. by f_equal.
Qed.

Lemma filter_fmap_same {A} (P : A → bool) (h : A → A) (l : list A) :
  (∀ x, P (h x) = P x) →
  List.filter P (h <$> l) = h <$> List.filter P l.
Proof.
  intros HP. induction l as [|x l IH]; [done|].
  rewrite fmap_cons. cbn [List.filter]. rewrite HP.
  destruct (P x); [rewrite fmap_cons|]; by rewrite IH.
Qed.

Lemma skip_limit_fmap {A B} (h : A → B) skip limit (l : list A) :
  skip_limit skip limit (h <$> l)
    = match skip_limit skip limit l with
      | Ok page => Ok (h <$> page)
      | Raise e => Raise e
      end.
Proof.
  unfold skip_limit.
  destruct ((skip <? 0)%Z || (limit <? 0)%Z)%bool; [done|].
  by rewrite fmap_take, fmap_drop.
Qed.

Section RelabelFacts.
Variable uuid4_hex : nat → string.
Variable lower : string → string.

Lemma network_edges_relabel f i c rows :
  network_edges uuid4_hex i c (relabel_row f <$> rows)
    = network_edges uuid4_hex i c rows.
Proof.
  revert i c. induction rows as [|x rows IH]; intros i c; [done|].
  rewrite fmap_cons. cbn [network_edges].
  change (network_edge uuid4_hex i c (relabel_row f x))
    with (network_edge uuid4_hex i c x).
  destruct (network_edge uuid4_hex i c x) as [[e c1]|]; [|done].
  cbn [mbind Res_bind]. by rewrite IH.
Qed.

Lemma edges_query_all_relabel f skip limit db :
  edges_query_all skip limit (relabel f db)
    = match edges_query_all skip limit db with
      | Ok page => Ok (relabel_row f <$> page)
      | Raise e => Raise e
      end.
Proof.
  unfold edges_query_all. rewrite match_edges_relabel.
  rewrite <- skip_limit_fmap, <- !list_fmap_compose. f_equal.
  apply list_fmap_ext. by intros ? [[a x] b] _.
Qed.

Lemma edges_query_anon_relabel f skip limit db :
  edges_query_anon skip limit (relabel f db)
    = match edges_query_anon skip limit db with
      | Ok page => Ok (relabel_row f <$> page)
      | Raise e => Raise e
      end.
Proof.
  unfold edges_query_anon. rewrite match_edges_relabel.
  rewrite filter_fmap_same by (by intros [[a x] b]).
  rewrite <- skip_limit_fmap, <- !list_fmap_compose. f_equal.
  apply list_fmap_ext. by intros ? [[a x] b] _.
Qed.

Lemma nodes_query_relabel f sn ln db :
  nodes_query_all sn ln (relabel f db) = nodes_query_all sn ln db
  ∧ nodes_query_anon sn ln (relabel f db) = nodes_query_anon sn ln db.
Proof. done. Qed.

(** X16: the edges of [GET /graph/edges] and of [GET /graph/network] do
    not depend on the labels of the relationships: the [label] of an edge is
    the relationship's [type] property, or [RELATED_TO], and a store with
    other labels gives the same responses. *)
Theorem edge_listings_ignore_labels (f : Rel → string) db skip limit (user : User)
    sn ln se le (u : option User) :
  get_graph_edges uuid4_hex (relabel f db) skip limit user
    = get_graph_edges uuid4_hex db skip limit user
  ∧ get_graph_network uuid4_hex lower (relabel f db) sn ln se le u
    = get_graph_network uuid4_hex lower db sn ln se le u.
Proof.
  destruct (nodes_query_relabel f sn ln db) as [Hall Hanon].
  split.
  - unfold get_graph_edges, execute_query.
    change (up (relabel f db)) with (up db).
    destruct (up db); [|done]. rewrite edges_query_all_relabel.
    destruct (edges_query_all skip limit db) as [page|]; [|done].
    cbn [mbind Res_bind]. by rewrite network_edges_relabel.
  - unfold get_graph_network, execute_query.
    change (up (relabel f db)) with (up db).
    destruct (up db); [|done]. f_equal.
    destruct u.
    + rewrite Hall.
      destruct (nodes_query_all sn ln db) as [nrows|]; [|done].
      cbn [mbind Res_bind].
      destruct (network_nodes uuid4_hex lower 0 0 nrows) as [[ns c]|]; [|done].
      cbn [mbind Res_bind]. rewrite edges_query_all_relabel.
      destruct (edges_query_all se le db) as [page|]; [|done].
      cbn [mbind Res_bind]. by rewrite network_edges_relabel.
    + rewrite Hanon.
      destruct (nodes_query_anon sn ln db) as [nrows|]; [|done].
      cbn [mbind Res_bind].
      destruct (network_nodes uuid4_hex lower 0 0 nrows) as [[ns c]|]; [|done].
      cbn [mbind Res_bind]. rewrite edges_query_anon_relabel.
      destruct (edges_query_anon se le db) as [page|]; [|done].
      cbn [mbind Res_bind]. by rewrite network_edges_relabel.
Qed.

End RelabelFacts.

(** ** The anonymous filter of the neighbor lookup *)

Lemma match_related_start db node_id t :
  t ∈ match_related db node_id →
  t.1.1 ∈ persons db ∧ has_id node_id t.1.1 = true.
Proof.
  unfold match_related. intros H.
  apply list_elem_of_join in H as (l & Ht & Hl).
  apply list_elem_of_lookup in Hl as (i & Hi).
  rewrite list_lookup_imap in Hi.
  destruct (persons db !! i) as [p|] eqn:Hp; [|done]. cbn in Hi.
  destruct (has_id node_id p) eqn:Hid; simplify_eq;
    [|by apply not_elem_of_nil in Ht].
  unfold related_of in Ht. apply list_elem_of_omap in Ht as (x & _ & Hx).
  assert (t.1.1 = p) as ->.
  { destruct (negb (String.eqb (rel_type x) "RELATED_TO")); [done|].
    destruct (rel_start x =? i)%nat.
    - destruct (persons db !! rel_end x); by simplify_eq/=.
    - destruct (rel_end x =? i)%nat; [|done].
      destruct (persons db !! rel_start x); by simplify_eq/=. }
  split; [|done]. by eapply list_elem_of_lookup_2.
Qed.

Lemma filter_all {A} (f : A → bool) (l : list A) :
  Forall (λ x, f x = true) l → List.filter f l = l.
Proof. induction 1 as [|x l Hx _ IH]; [done|]. cbn. by rewrite Hx, IH. Qed.

(** X17: for a node that is itself [system] or [public], the anonymous
    neighbor lookup filters nothing: it returns what an authenticated
    caller gets, neighbors of every [source_type] included. *)
Theorem anonymous_lookup_on_public_node db node_id (u : User) :
  Forall (λ p, has_id node_id p = true → st_in (props p) = Some true)
         (persons db) →
  get_node_connections db node_id None
    = get_node_connections db node_id (Some u).
Proof.
  intros Hpub. unfold get_node_connections, execute_query.
  destruct (up db); [|done]. unfold connections_query_anon, connections_query_all.
  rewrite filter_all; [done|].
  apply Forall_forall. intros [[p x] other] Ht.
  apply match_related_start in Ht as [Hin Hid]. cbn [fst] in Hin, Hid.
  rewrite Forall_forall in Hpub. unfold anon_connection_where.
  rewrite (Hpub p Hin Hid). by destruct (cy_and _ _) as [[]|], (st_null _) as [[]|].
Qed.

Lemma anonymous_lookup_on_public_node_witness :
  get_node_connections leak_db "a" None
    = Ok (PyDict [("connections",
            PyList [PyDict [("target_id", PyV (VStr "b"));
                            ("strength", PyNone); ("description", PyNone)]])]).
Proof.
  rewrite (anonymous_lookup_on_public_node leak_db "a" alice).
  - reflexivity.
  - repeat constructor; vm_compute; congruence.
Defined.

(** ** Search and listing *)

Lemma search_rows_case toLower q1 q2 l :
  toLower q1 = toLower q2 → search_rows toLower q1 l = search_rows toLower q2 l.
Proof.
  intros Hq. induction l as [|p l IH]; [done|].
  cbn [search_rows]. rewrite IH.
  unfold search_where, search_term. by rewrite Hq.
Qed.

(** X18: the case of the query does not matter: two queries that agree
    after lower-casing, by the [toLower] of the store, get the same answer
    from [GET /graph/nodes/search], errors included. *)
Theorem search_ignores_query_case toLower db q1 q2 (u : User) :
  toLower q1 = toLower q2 →
  search_graph_nodes toLower db q1 u = search_graph_nodes toLower db q2 u.
Proof.
  intros Hq. unfold search_graph_nodes, execute_query, search_query.
  by rewrite (search_rows_case toLower q1 q2).
Qed.

Lemma search_ignores_query_case_witness :
  search_graph_nodes ascii_lower search_db "WRITER" alice
    = search_graph_nodes ascii_lower search_db "writer" alice.
Proof.
  apply (search_ignores_query_case ascii_lower search_db "WRITER" "writer"
           alice).
  reflexivity.
Defined.

Lemma plain_node_Ok p n :
  plain_node p = Ok n →
  props p !! "id" = Some (VStr (n_id n))
  ∧ props p !! "name" = Some (VStr (n_label n))
  ∧ n_properties n = person_properties (props p).
Proof.
  unfold plain_node, GraphNode_new, as_str.
  destruct (props p !! "id") as [[]|]; try done.
  destruct (props p !! "name") as [[]|]; try done.
  by intros [= <-].
Qed.

Lemma plain_node_total p :
  has_str_id_name p = true ↔ ∃ n, plain_node p = Ok n.
Proof.
  unfold has_str_id_name, plain_node, GraphNode_new, as_str.
  destruct (props p !! "id") as [[]|]; try (split; [done|by intros [? ?]]).
  destruct (props p !! "name") as [[]|]; try (split; [done|by intros [? ?]]).
  split; [by eexists|done].
Qed.

(** X19: on a reachable store and a non-negative page, [GET /graph/nodes]
    answers exactly when every person of the page has a string [id] and a
    string [name]; the nodes it then returns carry those stored ids and
    names, in store order. One person without them fails the whole
    listing. *)
Theorem node_listing_succeeds_iff db skip limit (u : User) :
  up db = true →
  (0 ≤ skip)%Z → (0 ≤ limit)%Z →
  ((∃ nodes, get_graph_nodes db skip limit u = Ok nodes)
   ↔ forallb has_str_id_name
       (take (Z.to_nat limit) (drop (Z.to_nat skip) (persons db))) = true)
  ∧ ∀ nodes, get_graph_nodes db skip limit u = Ok nodes →
      Forall2 (λ p n,
          props p !! "id" = Some (VStr (n_id n))
          ∧ props p !! "name" = Some (VStr (n_label n))
          ∧ n_properties n = person_properties (props p))
        (take (Z.to_nat limit) (drop (Z.to_nat skip) (persons db))) nodes.
Proof.
  intros Hup Hs Hl. unfold get_graph_nodes, execute_query, nodes_query_all.
  rewrite Hup, skip_limit_nonneg by done. cbn [mbind Res_bind].
  set (page := take (Z.to_nat limit) (drop (Z.to_nat skip) (persons db))).
  split; [split|].
  - intros [nodes H]. apply except_500_Ok, mapM_Ok in H.
    apply forallb_Forall, Forall_forall. intros p Hp.
    apply list_elem_of_lookup in Hp as [i Hi].
    destruct (Forall2_lookup_l _ _ _ _ _ H Hi) as (n & _ & Hn).
    apply plain_node_total. by exists n.
  - intros H. apply forallb_Forall in H.
    destruct (mapM_total plain_node page) as [k Hk].
    + eapply Forall_impl; [exact H|]. intros p Hp. by apply plain_node_total.
    + exists k. by rewrite Hk.
  - intros nodes H. apply except_500_Ok, mapM_Ok in H.
    eapply Forall2_impl; [exact H|]. intros p n. apply plain_node_Ok.
Qed.

Lemma node_listing_succeeds_iff_witness :
  ∃ nodes, get_graph_nodes leak_db 0 100 alice = Ok nodes
           ∧ n_id <$> nodes = ["a"; "b"].
Proof.
  destruct (node_listing_succeeds_iff leak_db 0 100 alice eq_refl
              ltac:(lia) ltac:(lia)) as [[_ Htotal] _].
  destruct (Htotal eq_refl) as [nodes Hnodes].
  exists nodes. split; [exact Hnodes|].
  vm_compute in Hnodes. by injection Hnodes as <-.
Defined.

(** ** An update keeps a readable person readable *)

Lemma as_str_override (o : option string) x y :
  as_str x = Ok y →
  as_str match VStr <$> o with Some v => Some v | None => x end
    = Ok (default y o).
Proof. by destruct o. Qed.

Lemma as_opt_int_override (o : option Z) x y :
  as_opt_int x = Ok y →
  as_opt_int match VInt <$> o with Some v => Some v | None => x end
    = Ok match o with Some z => Some z | None => y end.
Proof. by destruct o. Qed.

Lemma as_opt_str_override (o : option string) x y :
  as_opt_str x = Ok y →
  as_opt_str match VStr <$> o with Some v => Some v | None => x end
    = Ok match o with Some z => Some z | None => y end.
Proof. by destruct o. Qed.

Lemma as_opt_list_override (o : option (list string)) x y :
  as_opt_list x = Ok y →
  as_opt_list match VList <$> o with Some v => Some v | None => x end
    = Ok match o with Some z => Some z | None => y end.
Proof. by destruct o. Qed.

Lemma as_bool_override (o : option bool) x y :
  as_bool (Some (default (VBool false) x)) = Ok y →
  as_bool (Some (default (VBool false)
                   match VBool <$> o with Some v => Some v | None => x end))
    = Ok (default y o).
Proof. by destruct o. Qed.

Section ReadableFacts.
Variable fromisoformat : string → option string.

Lemma person_response_of_updated pd (m : gmap string Value) resp :
  person_response_of fromisoformat m = Ok resp →
  ∃ resp', person_response_of fromisoformat (set_props (update_fields pd) m)
             = Ok resp'.
Proof.
  unfold person_response_of, get_default, update_fields. intros H.
  rewrite !set_props_lookup by apply update_table_NoDup.
  cbn [update_table dict_get String.eqb Ascii.eqb Bool.eqb].
  destruct (if truthy (m !! "created_at") then _ else _) as [created_at_arg|];
    [|done].
  cbn [mbind Res_bind] in H |- *.
  destruct (as_str (m !! "id")) as [id|]; [|done].
  cbn [mbind Res_bind] in H |- *.
  destruct (as_str (m !! "name")) as [name|] eqn:E1; [|done].
  rewrite (as_str_override _ _ _ E1).
  cbn [mbind Res_bind] in H |- *.
  destruct (as_opt_int (m !! "birth_year")) eqn:E2; [|done].
  rewrite (as_opt_int_override _ _ _ E2). cbn [mbind Res_bind] in H |- *.
  destruct (as_opt_int (m !! "death_year")) eqn:E3; [|done].
  rewrite (as_opt_int_override _ _ _ E3). cbn [mbind Res_bind] in H |- *.
  destruct (as_opt_list (m !! "occupation")) eqn:E4; [|done].
  rewrite (as_opt_list_override _ _ _ E4). cbn [mbind Res_bind] in H |- *.
  destruct (as_opt_list (m !! "specialty")) eqn:E5; [|done].
  rewrite (as_opt_list_override _ _ _ E5). cbn [mbind Res_bind] in H |- *.
  destruct (as_opt_list (m !! "hobby")) eqn:E6; [|done].
  rewrite (as_opt_list_override _ _ _ E6). cbn [mbind Res_bind] in H |- *.
  destruct (as_opt_str (m !! "achievement")) eqn:E7; [|done].
  rewrite (as_opt_str_override _ _ _ E7). cbn [mbind Res_bind] in H |- *.
  destruct (as_opt_list (m !! "female_experience")) eqn:E8; [|done].
  rewrite (as_opt_list_override _ _ _ E8). cbn [mbind Res_bind] in H |- *.
  destruct (as_opt_str (m !! "type")) eqn:E9; [|done].
  rewrite (as_opt_str_override _ _ _ E9). cbn [mbind Res_bind] in H |- *.
  destruct (as_opt_int (m !! "frequency")) eqn:E10; [|done].
  rewrite (as_opt_int_override _ _ _ E10). cbn [mbind Res_bind] in H |- *.
  destruct (as_opt_int (m !! "degree")) eqn:E11; [|done].
  rewrite (as_opt_int_override _ _ _ E11). cbn [mbind Res_bind] in H |- *.
  destruct (as_opt_str (m !! "description")) eqn:E12; [|done].
  rewrite (as_opt_str_override _ _ _ E12). cbn [mbind Res_bind] in H |- *.
  destruct (as_opt_str (m !! "human_readable_id")) eqn:E13; [|done].
  rewrite (as_opt_str_override _ _ _ E13). cbn [mbind Res_bind] in H |- *.
  destruct (as_opt_str (m !! "knowledge_source")) eqn:E14; [|done].
  rewrite (as_opt_str_override _ _ _ E14). cbn [mbind Res_bind] in H |- *.
  destruct (as_str (m !! "source_type")) eqn:E15; [|done].
  cbn [mbind Res_bind] in H |- *.
  destruct (as_opt_str (m !! "created_by")) eqn:E16; [|done].
  cbn [mbind Res_bind] in H |- *.
  destruct (as_bool (Some (default (VBool false) (m !! "is_verified"))))
    eqn:E17; [|done].
  rewrite (as_bool_override _ _ _ E17). cbn [mbind Res_bind] in H |- *.
  destruct created_at_arg; [|done].
  by eexists.
Qed.

(** X20: a person that [GET /persons/{id}] can return stays readable
    under any update: a [PUT] with at least one field answers with a
    person, not with an error. *)
Theorem update_of_readable_person db person_id pd (u u' : User) resp :
  get_person fromisoformat db person_id u = Ok resp →
  update_fields pd ≠ [] →
  ∃ resp', (update_person fromisoformat db person_id pd u').1 = Ok resp'.
Proof.
  intros Hget Hne. unfold get_person, execute_query, check_query in Hget.
  unfold update_person, execute_query, execute_write, check_query.
  destruct (up db) eqn:Hup; [|done]. cbn [mbind Res_bind] in Hget.
  destruct (List.filter (has_id person_id) (persons db)) as [|p l] eqn:Hf;
    [done|].
  destruct (person_response_of fromisoformat (props p)) as [r|e] eqn:Hr;
    [|by destruct e].
  destruct (update_fields pd) as [|f fs] eqn:Hu; [done|].
  unfold update_query. rewrite Hf. cbn [fst fmap list_fmap mbind Res_bind props].
  rewrite <- Hu.
  destruct (person_response_of_updated pd (props p) r Hr) as [resp' ->].
  by exists resp'.
Qed.

End ReadableFacts.

Lemma update_of_readable_person_witness :
  ∃ resp resp',
    get_person (λ s, Some s) search_dated_db "a" alice = Ok resp
    ∧ (update_person (λ s, Some s) search_dated_db "a" rename_ada alice).1
      = Ok resp'.
Proof.
  destruct (get_person (λ s, Some s) search_dated_db "a" alice)
    as [resp|] eqn:E; [|by vm_compute in E].
  destruct (update_of_readable_person (λ s, Some s) search_dated_db "a"
              rename_ada alice alice resp E ltac:(vm_compute; discriminate))
    as [resp' H].
  by exists resp, resp'.
Defined.

(** ** The anonymous filter of the edge query *)

(** X21: a relationship that starts at a [system] or [public] person
    passes the anonymous edge filter whatever its end node and its own
    [source_type] are; over a store where every relationship starts at such
    a person, the anonymous edge query of [get_graph_network] returns the
    rows of the authenticated one. *)
Theorem anonymous_edges_from_public_start db skip limit :
  Forall (λ x, ∀ a, persons db !! rel_start x = Some a →
                    st_in (props a) = Some true) (rels db) →
  edges_query_anon skip limit db = edges_query_all skip limit db.
Proof.
  intros Hpub. unfold edges_query_anon, edges_query_all.
  rewrite filter_all; [done|].
  apply Forall_forall. intros [[a x] b] Ht.
  unfold match_edges in Ht. apply list_elem_of_omap in Ht as (x' & Hx' & Hsome).
  destruct (persons db !! rel_start x') as [a'|] eqn:Ea; [|done].
  destruct (persons db !! rel_end x') as [b'|] eqn:Eb; [|done].
  cbn in Hsome. simplify_eq.
  rewrite Forall_forall in Hpub. unfold anon_edge_where.
  rewrite (Hpub x Hx' a Ea).
  by destruct (cy_and (st_null (props a)) _) as [[]|],
              (cy_and (st_null (props b)) _) as [[]|].
Qed.

Lemma anonymous_edges_from_public_start_witness :
  edges_query_anon 0 100 leak_db = edges_query_all 0 100 leak_db
  ∧ ∃ row, edges_query_anon 0 100 leak_db = Ok [row]
           ∧ target_id row = Some (VStr "b").
Proof.
  split.
  - apply (anonymous_edges_from_public_start leak_db 0 100).
    repeat constructor. intros a [= <-]. reflexivity.
  - eexists. split; reflexivity.
Defined.
